(** * Build orchestration of [src/main.ts]

    A shallow embedding of the command module: the one-shot [build], the
    file based [fileWatch], the in-memory [memoryWatch], [serve] and the
    command's [run].  The bundler, the configuration factories, the stats
    logger, the progress spinner and the HTTP application are external
    collaborators: calls made to them are recorded in a chronological
    list of effects, and the callbacks they invoke later are delivered to
    the model as events.

    Conventions of the model:
    - the configuration object, the compiler and the express application
      are the mutable objects of one run, held in the state;
    - a collaborator returns normally: exceptions thrown by webpack or a
      middleware factory are outside the model;
    - promise reactions run right after the synchronous code or the
      callback that settled the promise, before any other callback;
    - JavaScript numbers are integers. *)

From stdpp Require Import gmap strings list fin_maps pretty.

Open Scope string_scope.
Open Scope list_scope.

(** ** JavaScript values of the parsed argument object *)

(** [args] is typed [any]; its fields hold whatever the argument parser
    produced.  Numbers are restricted to integers. *)
Inductive JsVal :=
| JUndefined
| JNull
| JBool (b : bool)
| JNum (n : Z)
| JStr (s : string).

#[global] Instance JsVal_eq_dec : EqDecision JsVal.
Proof. solve_decision. Defined.

(** ToBoolean, as applied by [if (v)] and [v ? a : b]. *)
Definition truthy (v : JsVal) : bool :=
  match v with
  | JUndefined | JNull => false
  | JBool b => b
  | JNum n => negb (n =? 0)%Z
  | JStr s => negb (String.eqb s "")
  end.

(** [v === 'lit'] *)
Definition strict_eq (v : JsVal) (lit : string) : bool :=
  bool_decide (v = JStr lit).

(** ToString, as applied inside a template literal. *)
Definition template (v : JsVal) : string :=
  match v with
  | JUndefined => "undefined"
  | JNull => "null"
  | JBool true => "true"
  | JBool false => "false"
  | JNum n => pretty n
  | JStr s => s
  end.

Record Args := {
  mode : JsVal;
  watch : JsVal;
  serve_flag : JsVal;   (* args.serve *)
  port : JsVal
}.

(** ** External collaborators *)

(** Opaque data exchanged with the collaborators. *)
Class Collaborators := {
  Stats : Type;               (* compile stats reported by the bundler *)
  StatsJson : Type;
  toJson : Stats → StatsJson; (* stats.toJson() *)
  JsError : Type;             (* error objects *)
  RawConfig : Type;           (* helper.configuration.get() *)
  empty_rc : RawConfig;       (* {} *)
  WatchOptions : Type;        (* config.watchOptions *)
  PluginObj : Type            (* plugins put in place by a factory *)
}.

Inductive Factory := DevFactory | TestFactory | DistFactory.

#[global] Instance Factory_eq_dec : EqDecision Factory.
Proof. solve_decision. Defined.

(** A promise is settled at most once. *)
Inductive Promise `{Collaborators} :=
| Pending
| Fulfilled
| Rejected (e : JsError).

Definition resolve `{Collaborators} (p : Promise) : Promise :=
  match p with Pending => Fulfilled | _ => p end.

Definition reject `{Collaborators} (e : JsError) (p : Promise) : Promise :=
  match p with Pending => Rejected e | _ => p end.

Definition settled `{Collaborators} (p : Promise) : bool :=
  match p with Pending => false | _ => true end.

(** The promise a function returns. *)
Inductive PromiseRef :=
| BuildPromise      (* new Promise(...) of build *)
| WatchPromise      (* new Promise(...) of fileWatch *)
| ServePromise      (* the end of the then-chain of serve *)
| ResolvedPromise.  (* Promise.resolve() *)

#[global] Instance PromiseRef_eq_dec : EqDecision PromiseRef.
Proof. solve_decision. Defined.

(** References to arrays. *)
Abbreviation loc := positive.

Section Model.
Context `{Collaborators}.

(** ** The webpack configuration object *)

Inductive Plugin :=
| HotModuleReplacementPlugin
| NoEmitOnErrorsPlugin
| FactoryPlugin (p : PluginObj).

Record Output := { path : option string }.

(** [entry] is used as an object of named entry points, each an array of
    modules.  Arrays are objects: [entry] holds references and [arrays]
    is the store they point into, so that two names may refer to one
    array. *)
Record Configuration := {
  entry : gmap string loc;
  arrays : gmap loc (list string);
  plugins : list Plugin;
  output : option Output;
  watchOptions : WatchOptions
}.

Definition with_plugins (ps : list Plugin) (c : Configuration) : Configuration :=
  {| entry := entry c; arrays := arrays c; plugins := ps;
     output := output c; watchOptions := watchOptions c |}.

Definition with_arrays (h : gmap loc (list string)) (c : Configuration) : Configuration :=
  {| entry := entry c; arrays := h; plugins := plugins c;
     output := output c; watchOptions := watchOptions c |}.

(** ** Effects and registered callbacks *)

Inductive Middleware :=
| Static (dir : string)
| WebpackDevMiddleware (logLevel : string) (noInfo : bool)
    (publicPath : string) (wo : WatchOptions)
| WebpackHotMiddleware (heartbeat : Z).

Inductive Effect :=
| ESilenceConsoleLog                       (* console.log = () => {} *)
| EFactory (f : Factory) (rc : RawConfig)  (* a configuration factory call *)
| EWebpack (c : Configuration)             (* webpack(config) *)
| EFixMultipleWatchTrigger
| EOraStart (text : string)                (* ora(text).start() *)
| ESpinnerStart
| ESpinnerStop
| ELogUpdate (text : string)
| ECompilerRun                             (* compiler.run(cb) *)
| ECompilerWatch (wo : WatchOptions)       (* compiler.watch(options, cb) *)
| ELogger (j : StatsJson) (c : Configuration) (message : option string)
| EWarn (text : string)                    (* console.warn *)
| EExpress                                 (* express() *)
| EListen (p : JsVal).                     (* app.listen(port, cb) *)

(** Handlers given to [compiler.plugin]. *)
Inductive InvalidHook :=
| RestartSpinner.

Inductive DoneHook :=
| StopSpinner
| LogListening (args : Args).

(** Where the then-chain of [serve] stands. *)
Inductive Stage :=
| NoChain
| AwaitFirst (r : PromiseRef) (args : Args) (* first callback returned r, still pending *)
| AwaitBind                                 (* second callback ran: listening requested *)
| ChainSettled.

Record State := {
  config : Configuration;           (* the configuration object *)
  app : list Middleware;            (* middleware stack of the express application *)
  effects : list Effect;
  invalid_hooks : list InvalidHook; (* compiler.plugin('invalid', ...) *)
  done_hooks : list DoneHook;       (* compiler.plugin('done', ...) *)
  run_cb : bool;                    (* callback handed to compiler.run *)
  watch_cb : option Args;           (* callback handed to compiler.watch *)
  listen_cb : bool;                 (* callback handed to app.listen *)
  build_promise : option Promise;
  watch_promise : option Promise;
  serve_promise : option Promise;
  stage : Stage
}.

Definition new_state (c : Configuration) (es : list Effect) : State :=
  {| config := c; app := []; effects := es;
     invalid_hooks := []; done_hooks := [];
     run_cb := false; watch_cb := None; listen_cb := false;
     build_promise := None; watch_promise := None; serve_promise := None;
     stage := NoChain |}.

Definition set_config (f : Configuration → Configuration) (s : State) : State :=
  {| config := f (config s); app := app s; effects := effects s;
     invalid_hooks := invalid_hooks s; done_hooks := done_hooks s;
     run_cb := run_cb s; watch_cb := watch_cb s; listen_cb := listen_cb s;
     build_promise := build_promise s; watch_promise := watch_promise s;
     serve_promise := serve_promise s; stage := stage s |}.

Definition set_app (f : list Middleware → list Middleware) (s : State) : State :=
  {| config := config s; app := f (app s); effects := effects s;
     invalid_hooks := invalid_hooks s; done_hooks := done_hooks s;
     run_cb := run_cb s; watch_cb := watch_cb s; listen_cb := listen_cb s;
     build_promise := build_promise s; watch_promise := watch_promise s;
     serve_promise := serve_promise s; stage := stage s |}.

(** The list of effects only ever grows at its end. *)
Definition add_effects (l : list Effect) (s : State) : State :=
  {| config := config s; app := app s; effects := effects s ++ l;
     invalid_hooks := invalid_hooks s; done_hooks := done_hooks s;
     run_cb := run_cb s; watch_cb := watch_cb s; listen_cb := listen_cb s;
     build_promise := build_promise s; watch_promise := watch_promise s;
     serve_promise := serve_promise s; stage := stage s |}.

Definition set_invalid_hooks (f : list InvalidHook → list InvalidHook) (s : State) : State :=
  {| config := config s; app := app s; effects := effects s;
     invalid_hooks := f (invalid_hooks s); done_hooks := done_hooks s;
     run_cb := run_cb s; watch_cb := watch_cb s; listen_cb := listen_cb s;
     build_promise := build_promise s; watch_promise := watch_promise s;
     serve_promise := serve_promise s; stage := stage s |}.

Definition set_done_hooks (f : list DoneHook → list DoneHook) (s : State) : State :=
  {| config := config s; app := app s; effects := effects s;
     invalid_hooks := invalid_hooks s; done_hooks := f (done_hooks s);
     run_cb := run_cb s; watch_cb := watch_cb s; listen_cb := listen_cb s;
     build_promise := build_promise s; watch_promise := watch_promise s;
     serve_promise := serve_promise s; stage := stage s |}.

Definition set_run_cb (b : bool) (s : State) : State :=
  {| config := config s; app := app s; effects := effects s;
     invalid_hooks := invalid_hooks s; done_hooks := done_hooks s;
     run_cb := b; watch_cb := watch_cb s; listen_cb := listen_cb s;
     build_promise := build_promise s; watch_promise := watch_promise s;
     serve_promise := serve_promise s; stage := stage s |}.

Definition set_watch_cb (a : option Args) (s : State) : State :=
  {| config := config s; app := app s; effects := effects s;
     invalid_hooks := invalid_hooks s; done_hooks := done_hooks s;
     run_cb := run_cb s; watch_cb := a; listen_cb := listen_cb s;
     build_promise := build_promise s; watch_promise := watch_promise s;
     serve_promise := serve_promise s; stage := stage s |}.

Definition set_listen_cb (b : bool) (s : State) : State :=
  {| config := config s; app := app s; effects := effects s;
     invalid_hooks := invalid_hooks s; done_hooks := done_hooks s;
     run_cb := run_cb s; watch_cb := watch_cb s; listen_cb := b;
     build_promise := build_promise s; watch_promise := watch_promise s;
     serve_promise := serve_promise s; stage := stage s |}.

Definition set_build_promise (f : option Promise → option Promise) (s : State) : State :=
  {| config := config s; app := app s; effects := effects s;
     invalid_hooks := invalid_hooks s; done_hooks := done_hooks s;
     run_cb := run_cb s; watch_cb := watch_cb s; listen_cb := listen_cb s;
     build_promise := f (build_promise s); watch_promise := watch_promise s;
     serve_promise := serve_promise s; stage := stage s |}.

Definition set_watch_promise (f : option Promise → option Promise) (s : State) : State :=
  {| config := config s; app := app s; effects := effects s;
     invalid_hooks := invalid_hooks s; done_hooks := done_hooks s;
     run_cb := run_cb s; watch_cb := watch_cb s; listen_cb := listen_cb s;
     build_promise := build_promise s; watch_promise := f (watch_promise s);
     serve_promise := serve_promise s; stage := stage s |}.

Definition set_serve_promise (f : option Promise → option Promise) (s : State) : State :=
  {| config := config s; app := app s; effects := effects s;
     invalid_hooks := invalid_hooks s; done_hooks := done_hooks s;
     run_cb := run_cb s; watch_cb := watch_cb s; listen_cb := listen_cb s;
     build_promise := build_promise s; watch_promise := watch_promise s;
     serve_promise := f (serve_promise s); stage := stage s |}.

Definition set_stage (g : Stage) (s : State) : State :=
  {| config := config s; app := app s; effects := effects s;
     invalid_hooks := invalid_hooks s; done_hooks := done_hooks s;
     run_cb := run_cb s; watch_cb := watch_cb s; listen_cb := listen_cb s;
     build_promise := build_promise s; watch_promise := watch_promise s;
     serve_promise := serve_promise s; stage := g |}.

(** The state of the promise behind a reference. *)
Definition promise_of (r : PromiseRef) (s : State) : option Promise :=
  match r with
  | BuildPromise => build_promise s
  | WatchPromise => watch_promise s
  | ServePromise => serve_promise s
  | ResolvedPromise => Some Fulfilled
  end.

(** ** A state monad for the synchronous code *)

Definition M (A : Type) : Type := State → A * State.

#[global] Instance M_ret : MRet M := λ A a s, (a, s).

#[global] Instance M_bind : MBind M :=
  λ A B k m s, let '(a, s') := m s in k a s'.

Definition modify (f : State → State) : M unit := λ s, (tt, f s).

Definition gets {A} (f : State → A) : M A := λ s, (f s, s).

Definition when (b : bool) (m : M unit) : M unit := if b then m else mret tt.

Definition exec {A} (m : M A) (s : State) : State := (m s).2.

Definition emit (e : Effect) : M unit := modify (add_effects [e]).

(** ** The program *)

(** The configuration factories imported by the module, and the process. *)
Class Host := {
  devConfigFactory : RawConfig → Configuration;
  testConfigFactory : RawConfig → Configuration;
  distConfigFactory : RawConfig → Configuration;
  cwd : string (* process.cwd() *)
}.

Context `{Host}.

(** One compiler is created per run; its hooks live in the state. *)
Definition createCompiler : M unit :=
  c ← gets config;
  emit (EWebpack c);;
  emit EFixMultipleWatchTrigger.

Definition createWatchCompiler : M unit :=
  createCompiler;;
  emit (EOraStart "building");;
  modify (set_invalid_hooks (λ hs, hs ++ [RestartSpinner]));;
  modify (set_done_hooks (λ hs, hs ++ [StopSpinner])).

Definition run_invalid_hook (h : InvalidHook) : M unit :=
  match h with
  | RestartSpinner => emit (ELogUpdate "");; emit ESpinnerStart
  end.

Definition build : M PromiseRef :=
  createCompiler;;
  emit (EOraStart "building");;
  modify (set_build_promise (λ _, Some Pending));;
  emit ECompilerRun;;
  modify (set_run_cb true);;
  mret BuildPromise.

(** The callback [(err, stats) => ...] handed to [compiler.run]. *)
Definition build_callback (err : option JsError) (stats : option Stats) : M unit :=
  emit ESpinnerStop;;
  match err with
  | Some e => modify (set_build_promise (fmap (reject e)))
  | None => mret tt
  end;;
  match stats with
  | Some st => c ← gets config; emit (ELogger (toJson st) c None)
  | None => mret tt
  end;;
  modify (set_build_promise (fmap resolve)).

Definition fileWatch (args : Args) : M PromiseRef :=
  createWatchCompiler;;
  modify (set_watch_promise (λ _, Some Pending));;
  c ← gets config;
  emit (ECompilerWatch (watchOptions c));;
  modify (set_watch_cb (Some args));;
  mret WatchPromise.

Definition runningMessage (args : Args) : string :=
  if truthy (serve_flag args)
  then "Listening on port " +:+ template (port args)
  else "watching...".

(** The callback [(err, stats) => ...] handed to [compiler.watch]. *)
Definition fileWatch_callback (args : Args)
    (err : option JsError) (stats : option Stats) : M unit :=
  match err with
  | Some e => modify (set_watch_promise (fmap (reject e)))
  | None => mret tt
  end;;
  match stats with
  | Some st =>
      c ← gets config;
      emit (ELogger (toJson st) c (Some (runningMessage args)))
  | None => mret tt
  end;;
  modify (set_watch_promise (fmap resolve)).

Definition timeout : Z := 20 * 1000.

Definition hotReloadClientRef : string :=
  "webpack-hot-middleware/client?timeout=" +:+ pretty timeout +:+ "&reload=true".

(** [Object.keys(entry)]: every key is listed once.  The order of the
    keys is the map's, not JavaScript's; [memoryWatch] does the same to
    every key, so that the order is of no consequence. *)
Definition object_keys {A} (o : gmap string A) : list string :=
  (map_to_list o).*1.

(** [a.unshift(x)] on the array behind [l]. *)
Definition unshift (x : string) (l : loc)
    (h : gmap loc (list string)) : gmap loc (list string) :=
  alter (cons x) l h.

(** [entry[name].unshift(hotReloadClientRef)] *)
Definition prepend_client (e : gmap string loc)
    (h : gmap loc (list string)) (name : string) : gmap loc (list string) :=
  match e !! name with
  | Some l => unshift hotReloadClientRef l h
  | None => h
  end.

Definition listeningMessage (args : Args) : string :=
  "Listening on port " +:+ template (port args) +:+ "...".

Definition run_done_hook (st : Stats) (h : DoneHook) : M unit :=
  match h with
  | StopSpinner => emit ESpinnerStop
  | LogListening args =>
      c ← gets config;
      emit (ELogger (toJson st) c (Some (listeningMessage args)))
  end.

Definition app_use (ms : list Middleware) : M unit :=
  modify (set_app (λ stack, stack ++ ms)).

Definition memoryWatch (args : Args) : M PromiseRef :=
  modify (set_config (λ c,
    with_plugins (plugins c ++ [HotModuleReplacementPlugin; NoEmitOnErrorsPlugin]) c));;
  modify (set_config (λ c,
    with_arrays (foldl (prepend_client (entry c)) (arrays c) (object_keys (entry c))) c));;
  c ← gets config;
  createWatchCompiler;;
  modify (set_done_hooks (λ hs, hs ++ [LogListening args]));;
  app_use [WebpackDevMiddleware "silent" true "/" (watchOptions c);
           WebpackHotMiddleware (timeout / 2)];;
  mret ResolvedPromise.

(** [(config.output && config.output.path) || process.cwd()] *)
Definition outputDir (c : Configuration) : string :=
  match output c with
  | Some o =>
      match path o with
      | Some p => if String.eqb p "" then cwd else p
      | None => cwd
      end
  | None => cwd
  end.

(** The second callback of the chain: [app.listen(args.port, cb)]. *)
Definition listen (args : Args) : M unit :=
  emit (EListen (port args));;
  modify (set_listen_cb true);;
  modify (set_stage AwaitBind).

(** The callback [(error) => ...] handed to [app.listen]. *)
Definition listen_callback (error : option JsError) : M unit :=
  match error with
  | Some e => modify (set_serve_promise (fmap (reject e)))
  | None => modify (set_serve_promise (fmap resolve))
  end;;
  modify (set_stage ChainSettled).

(** [.then(listen)] on the value [r] the first callback returned:
    [undefined] or a fulfilled promise lets the second callback run, a
    rejected promise rejects the chain, a pending one is waited for. *)
Definition then_listen (r : option PromiseRef) (args : Args) : M unit :=
  match r with
  | None => listen args
  | Some r =>
      p ← gets (promise_of r);
      match p with
      | Some Fulfilled => listen args
      | Some (Rejected e) =>
          modify (set_serve_promise (fmap (reject e)));;
          modify (set_stage ChainSettled)
      | _ => modify (set_stage (AwaitFirst r args))
      end
  end.

Definition serve (args : Args) : M PromiseRef :=
  emit EExpress;;
  modify (set_app (λ _, []));;
  when (negb (strict_eq (watch args) "memory"))
    (c ← gets config; app_use [Static (outputDir c)]);;
  modify (set_serve_promise (λ _, Some Pending));;
  r ← (if strict_eq (watch args) "memory" && strict_eq (mode args) "dev"
       then r ← memoryWatch args; mret (Some r)
       else if truthy (watch args)
       then
         when (strict_eq (watch args) "memory")
           (emit (EWarn "Memory watch requires `--mode=dev`. Using file watch instead..."));;
         r ← fileWatch args; mret (Some r)
       else mret None);
  then_listen r args;;
  mret ServePromise.

(** The configuration chosen by [args.mode], with the factory called. *)
Definition select_config (args : Args) (rc : RawConfig)
    : Factory * Configuration :=
  if strict_eq (mode args) "dev" then (DevFactory, devConfigFactory rc)
  else if strict_eq (mode args) "test" then (TestFactory, testConfigFactory rc)
  else (DistFactory, distConfigFactory rc).

Definition run (helper_configuration : option RawConfig) (args : Args)
    : PromiseRef * State :=
  let rc := default empty_rc helper_configuration in
  let '(f, c) := select_config args rc in
  let s0 := new_state c [ESilenceConsoleLog; EFactory f rc] in
  if truthy (serve_flag args) then serve args s0
  else if truthy (watch args) then
    (when (strict_eq (watch args) "memory")
       (emit (EWarn "Memory watch requires the dev server. Using file watch instead..."));;
     fileWatch args) s0
  else build s0.

(** ** Callbacks delivered by the collaborators *)

Inductive Event :=
| CompilerInvalid                                          (* 'invalid' *)
| CompilerDone (st : Stats)                                (* 'done' *)
| RunCallback (err : option JsError) (stats : option Stats)
| WatchCallback (err : option JsError) (stats : option Stats)
| ListenCallback (error : option JsError).

Fixpoint for_each {A} (f : A → M unit) (l : list A) : M unit :=
  match l with
  | [] => mret tt
  | x :: l => f x;; for_each f l
  end.

(** [compiler.run] reports once and [app.listen] registers a one-time
    listener; the watch callback stays registered. *)
Definition handle (ev : Event) : M unit :=
  match ev with
  | CompilerInvalid => hs ← gets invalid_hooks; for_each run_invalid_hook hs
  | CompilerDone st => hs ← gets done_hooks; for_each (run_done_hook st) hs
  | RunCallback err stats =>
      b ← gets run_cb;
      when b (modify (set_run_cb false);; build_callback err stats)
  | WatchCallback err stats =>
      a ← gets watch_cb;
      match a with
      | Some args => fileWatch_callback args err stats
      | None => mret tt
      end
  | ListenCallback error =>
      b ← gets listen_cb;
      when b (modify (set_listen_cb false);; listen_callback error)
  end.

(** Promise reactions run once the callback has returned. *)
Definition reactions : M unit :=
  g ← gets stage;
  match g with
  | AwaitFirst r args => then_listen (Some r) args
  | _ => mret tt
  end.

Definition deliver (s : State) (ev : Event) : State :=
  exec (handle ev;; reactions) s.

Definition deliver_all (s : State) (evs : list Event) : State :=
  foldl deliver s evs.

End Model.

(** * Properties *)

Ltac unfold_m :=
  cbv [deliver handle reactions then_listen listen listen_callback
       build_callback fileWatch_callback build fileWatch
       createCompiler createWatchCompiler run_done_hook run_invalid_hook
       mbind M_bind mret M_ret gets modify when emit exec app_use
       set_config set_app add_effects set_invalid_hooks set_done_hooks
       set_run_cb set_watch_cb set_listen_cb set_build_promise
       set_watch_promise set_serve_promise set_stage new_state promise_of
       resolve reject
       config app effects invalid_hooks done_hooks run_cb watch_cb listen_cb
       build_promise watch_promise serve_promise stage fst snd].

(** Case analysis on the state components a computation branches on. *)
Ltac case_var :=
  match goal with
  | |- context [match ?x with _ => _ end] => is_var x; destruct x
  | |- context [_ <$> ?x] => is_var x; destruct x
  end.

Ltac crunch := repeat (unfold_m; cbn; case_var); unfold_m; cbn.

Ltac unfold_serve :=
  cbv [serve memoryWatch mbind M_bind mret M_ret gets modify when emit
       app_use createWatchCompiler createCompiler fileWatch then_listen
       listen promise_of
       set_config set_app add_effects set_invalid_hooks set_done_hooks
       set_run_cb set_watch_cb set_listen_cb set_build_promise
       set_watch_promise set_serve_promise set_stage new_state
       config app effects invalid_hooks done_hooks run_cb watch_cb listen_cb
       build_promise watch_promise serve_promise stage fst snd].

Section Properties.
Context `{Collaborators} `{!Host}.

(** ** Effects of the compiler hooks *)

Definition invalid_hook_effects (h : InvalidHook) : list Effect :=
  match h with
  | RestartSpinner => [ELogUpdate ""; ESpinnerStart]
  end.

Definition done_hook_effects (st : Stats) (c : Configuration)
    (h : DoneHook) : list Effect :=
  match h with
  | StopSpinner => [ESpinnerStop]
  | LogListening args => [ELogger (toJson st) c (Some (listeningMessage args))]
  end.

Lemma add_effects_nil s : add_effects [] s = s.
Proof. destruct s; unfold add_effects; cbn. by rewrite app_nil_r. Qed.

Lemma add_effects_app l1 l2 s :
  add_effects l2 (add_effects l1 s) = add_effects (l1 ++ l2) s.
Proof. destruct s; unfold add_effects; cbn. by rewrite app_assoc. Qed.

Lemma for_each_invalid hs s :
  for_each run_invalid_hook hs s
  = ((), add_effects (hs ≫= invalid_hook_effects) s).
Proof.
  revert s; induction hs as [|h hs IH]; intros s.
  - by rewrite add_effects_nil.
  - destruct h. cbn [for_each]. unfold mbind at 1, M_bind.
    unfold run_invalid_hook, emit, modify, mbind at 1, M_bind.
    rewrite IH, !add_effects_app. reflexivity.
Qed.

Lemma for_each_done st hs s :
  for_each (run_done_hook st) hs s
  = ((), add_effects (hs ≫= done_hook_effects st (config s)) s).
Proof.
  revert s; induction hs as [|h hs IH]; intros s.
  - by rewrite add_effects_nil.
  - cbn [for_each]. unfold mbind at 1, M_bind.
    destruct h; unfold run_done_hook, emit, modify, gets, mbind at 1, M_bind;
      rewrite IH, !add_effects_app; destruct s; reflexivity.
Qed.

(** Opens [deliver s ev] on a state given by its components. *)
Ltac split_event s ev :=
  destruct s; destruct ev; unfold deliver, exec, handle;
  unfold mbind at 1, M_bind; unfold mbind at 1, M_bind; unfold gets at 1;
  rewrite ?for_each_invalid, ?for_each_done.

(** ** What no callback touches *)

Lemma deliver_config s ev : config (deliver s ev) = config s.
Proof. split_event s ev; crunch; reflexivity. Qed.

Lemma deliver_app s ev : app (deliver s ev) = app s.
Proof. split_event s ev; crunch; reflexivity. Qed.

Lemma deliver_watch_cb s ev : watch_cb (deliver s ev) = watch_cb s.
Proof. split_event s ev; crunch; reflexivity. Qed.

Lemma deliver_all_cons s ev evs :
  deliver_all s (ev :: evs) = deliver_all (deliver s ev) evs.
Proof. reflexivity. Qed.

Lemma deliver_all_config evs s : config (deliver_all s evs) = config s.
Proof.
  revert s; induction evs as [|ev evs IH]; intros s; [done|].
  by rewrite deliver_all_cons, IH, deliver_config.
Qed.

Lemma deliver_all_app evs s : app (deliver_all s evs) = app s.
Proof.
  revert s; induction evs as [|ev evs IH]; intros s; [done|].
  by rewrite deliver_all_cons, IH, deliver_app.
Qed.

Lemma deliver_all_watch_cb evs s : watch_cb (deliver_all s evs) = watch_cb s.
Proof.
  revert s; induction evs as [|ev evs IH]; intros s; [done|].
  by rewrite deliver_all_cons, IH, deliver_watch_cb.
Qed.

(** A state with no callback registered ignores every event. *)
Definition quiet (s : State) : Prop :=
  invalid_hooks s = [] ∧ done_hooks s = [] ∧ run_cb s = false ∧
  watch_cb s = None ∧ listen_cb s = false ∧ stage s = NoChain.

Lemma quiet_deliver s ev : quiet s → deliver s ev = s.
Proof.
  intros (Hi & Hd & Hr & Hw & Hl & Hg).
  destruct s; cbn in *; subst.
  destruct ev; unfold deliver, exec, handle;
    unfold mbind at 1, M_bind; unfold mbind at 1, M_bind; unfold gets at 1;
    crunch; by rewrite ?app_nil_r.
Qed.

Lemma quiet_deliver_all s evs : quiet s → deliver_all s evs = s.
Proof.
  intros Hq. induction evs as [|ev evs IH]; [done|].
  by rewrite deliver_all_cons, quiet_deliver.
Qed.

Definition is_logger (e : Effect) : bool :=
  match e with ELogger _ _ _ => true | _ => false end.

(** ** The one-shot build *)

(** C1. Once [build] has handed its callback to the compiler, a callback
    that reports an error leaves the returned promise rejected with that
    error; a callback that reports stats and no error leaves it fulfilled,
    having called the logger exactly once, with the stats as JSON, the
    configuration and no status message.  No later event changes
    either outcome. *)
Theorem build_outcome (c : Configuration) (es : list Effect) :
  let r := (build (new_state c es)).1 in
  let s1 := (build (new_state c es)).2 in
  r = BuildPromise ∧
  promise_of r s1 = Some Pending ∧
  effects s1 = es ++ [EWebpack c; EFixMultipleWatchTrigger;
                      EOraStart "building"; ECompilerRun] ∧
  (∀ e stats evs,
     promise_of r (deliver_all (deliver s1 (RunCallback (Some e) stats)) evs)
     = Some (Rejected e)) ∧
  (∀ st evs,
     let s2 := deliver_all (deliver s1 (RunCallback None (Some st))) evs in
     promise_of r s2 = Some Fulfilled ∧
     effects s2 = effects s1 ++ [ESpinnerStop; ELogger (toJson st) c None] ∧
     length (List.filter is_logger (effects s2))
     = S (length (List.filter is_logger es))).
Proof.
  cbn zeta. split; [reflexivity|]. split; [reflexivity|].
  split; [unfold_m; cbn; by rewrite <- !app_assoc|].
  split.
  - intros e stats evs. rewrite quiet_deliver_all.
    + destruct stats; reflexivity.
    + destruct stats; by unfold quiet.
  - intros st evs. rewrite quiet_deliver_all; [|by unfold quiet].
    split; [reflexivity|]. split.
    + unfold_m; cbn. by rewrite <- !app_assoc.
    + unfold_m; cbn. rewrite !List.filter_app. cbn.
      rewrite !app_nil_r, length_app. cbn. lia.
Qed.

(** ** The file watch *)

Definition is_watch_callback (ev : Event) : bool :=
  match ev with WatchCallback _ _ => true | _ => false end.

Lemma deliver_watch_promise_other s ev :
  is_watch_callback ev = false →
  watch_promise (deliver s ev) = watch_promise s.
Proof. intros Hev. split_event s ev; try discriminate; crunch; reflexivity. Qed.

Lemma deliver_watch_promise_settled s ev p :
  watch_promise s = Some p → settled p = true →
  watch_promise (deliver s ev) = Some p.
Proof.
  intros Hp Hs. destruct p; try discriminate.
  all: split_event s ev; cbn in Hp; subst; crunch; reflexivity.
Qed.

Lemma deliver_all_watch_promise_settled evs s p :
  watch_promise s = Some p → settled p = true →
  watch_promise (deliver_all s evs) = Some p.
Proof.
  revert s; induction evs as [|ev evs IH]; intros s Hp Hs; [done|].
  rewrite deliver_all_cons. apply IH; [|done].
  by apply deliver_watch_promise_settled.
Qed.

Lemma deliver_watch_promise_first s args err stats :
  watch_cb s = Some args → watch_promise s = Some Pending →
  watch_promise (deliver s (WatchCallback err stats))
  = Some (match err with Some e => Rejected e | None => Fulfilled end).
Proof.
  intros Hcb Hp. destruct s; cbn in Hcb, Hp; subst.
  unfold deliver, exec, handle. crunch; reflexivity.
Qed.

(** After the reactions have run, the chain of [serve] never waits for a
    promise that is already settled. *)
Definition awaiting_ok (s : State) : Prop :=
  ∀ r a, stage s = AwaitFirst r a →
    promise_of r s = None ∨ promise_of r s = Some Pending.

Lemma deliver_awaiting_ok s ev : awaiting_ok (deliver s ev).
Proof.
  split_event s ev; crunch.
  all: intros r' a' [=]; subst; cbn; auto.
Qed.

Lemma deliver_all_awaiting_ok evs s :
  awaiting_ok s → awaiting_ok (deliver_all s evs).
Proof.
  revert s; induction evs as [|ev evs IH]; intros s Hs; [done|].
  rewrite deliver_all_cons. apply IH, deliver_awaiting_ok.
Qed.

Lemma watch_callback_effects s args p err stats :
  awaiting_ok s → watch_cb s = Some args →
  watch_promise s = Some p → settled p = true →
  effects (deliver s (WatchCallback err stats))
  = effects s ++
    match stats with
    | Some st => [ELogger (toJson st) (config s) (Some (runningMessage args))]
    | None => []
    end.
Proof.
  intros Hok Hcb Hp Hs. unfold awaiting_ok in Hok.
  destruct s; cbn in Hok, Hcb, Hp; subst.
  destruct p; try discriminate.
  all: destruct stage0 as [|r a| |];
    [|destruct (Hok r a eq_refl) as [Hr|Hr]; destruct r; cbn in Hr;
      try discriminate; subst| |].
  all: unfold deliver, exec, handle; crunch; by rewrite ?app_nil_r.
Qed.

(** A callback that reports the error [e] logs: it calls the logger. *)
Definition later_error_logged (s : State) (e : JsError)
    (stats : option Stats) : Prop :=
  ∃ l, effects (deliver s (WatchCallback (Some e) stats)) = effects s ++ l ∧
       existsb is_logger l = true.

(** C6, as amended.  The promise returned by [fileWatch] is pending
    until the watch callback is invoked for the first time, and that
    invocation settles it: rejected with the error when it reports one,
    fulfilled otherwise.  Nothing that happens afterwards changes the
    promise: an error reported by a later invocation does not come out
    through it.  Such an error is not logged either: a later invocation
    calls the logger exactly when it carries stats, with the stats and
    never with the error, and one that reports an error without stats
    has no effect at all. *)
Theorem fileWatch_settles_once (s : State) (args : Args)
    (pre : list Event) (err : option JsError) (stats : option Stats) :
  Forall (λ ev, is_watch_callback ev = false) pre →
  let r := (fileWatch args s).1 in
  let s1 := (fileWatch args s).2 in
  let s2 := deliver_all s1 pre in
  let s3 := deliver s2 (WatchCallback err stats) in
  r = WatchPromise ∧
  promise_of r s2 = Some Pending ∧
  promise_of r s3
  = Some (match err with Some e => Rejected e | None => Fulfilled end) ∧
  (∀ post, promise_of r (deliver_all s3 post) = promise_of r s3) ∧
  (∀ post err' stats',
     let s4 := deliver_all s3 post in
     let s5 := deliver s4 (WatchCallback err' stats') in
     promise_of r s5 = promise_of r s3 ∧
     effects s5
     = effects s4 ++
       match stats' with
       | Some st =>
           [ELogger (toJson st) (config s) (Some (runningMessage args))]
       | None => []
       end) ∧
  (∀ post e',
     let s4 := deliver_all s3 post in
     effects (deliver s4 (WatchCallback (Some e') None)) = effects s4 ∧
     ¬ later_error_logged s4 e' None).
Proof.
  intros Hpre. cbn zeta.
  set (s1 := (fileWatch args s).2).
  assert (Hcb1 : watch_cb s1 = Some args) by (destruct s; reflexivity).
  assert (Hp1 : watch_promise s1 = Some Pending) by (destruct s; reflexivity).
  assert (Hc1 : config s1 = config s) by (destruct s; reflexivity).
  change (fileWatch args s).1 with WatchPromise.
  assert (Hp2 : watch_promise (deliver_all s1 pre) = Some Pending).
  { clearbody s1. clear Hcb1 Hc1. revert s1 Hp1.
    induction Hpre as [|ev pre Hev _ IH]; intros s1 Hp1; [done|].
    rewrite deliver_all_cons. apply IH.
    by rewrite deliver_watch_promise_other. }
  set (s2 := deliver_all s1 pre) in *.
  assert (Hcb2 : watch_cb s2 = Some args)
    by (unfold s2; by rewrite deliver_all_watch_cb).
  pose proof (deliver_watch_promise_first s2 args err stats Hcb2 Hp2) as Hp3.
  set (s3 := deliver s2 (WatchCallback err stats)) in *.
  set (p := match err with Some e => Rejected e | None => Fulfilled end) in *.
  assert (Hset : settled p = true) by (unfold p; by destruct err).
  assert (Heff : ∀ post err' stats',
    effects (deliver (deliver_all s3 post) (WatchCallback err' stats'))
    = effects (deliver_all s3 post) ++
      match stats' with
      | Some st =>
          [ELogger (toJson st) (config s) (Some (runningMessage args))]
      | None => []
      end).
  { intros post err' stats'.
    rewrite (watch_callback_effects (deliver_all s3 post) args p).
    - rewrite deliver_all_config. unfold s3.
      rewrite deliver_config. unfold s2.
      by rewrite deliver_all_config, Hc1.
    - apply deliver_all_awaiting_ok, deliver_awaiting_ok.
    - rewrite deliver_all_watch_cb. unfold s3.
      by rewrite deliver_watch_cb.
    - by apply deliver_all_watch_promise_settled.
    - done. }
  split; [done|]. split; [done|]. split; [done|]. split; [|split].
  - intros post. cbn [promise_of]. rewrite Hp3.
    by apply deliver_all_watch_promise_settled.
  - intros post err' stats'. cbn [promise_of]. split.
    + rewrite Hp3. apply deliver_watch_promise_settled; [|done].
      by apply deliver_all_watch_promise_settled.
    + apply Heff.
  - intros post e'. cbn zeta.
    pose proof (Heff post (Some e') None) as Hnone.
    rewrite app_nil_r in Hnone. split; [done|].
    intros (l & Hl & Hlog). rewrite Hnone in Hl.
    rewrite <- (app_nil_r (effects (deliver_all s3 post))) in Hl at 1.
    apply app_inv_head in Hl. subst l. discriminate.
Qed.

(** ** The then-chain of [serve] *)

(** While the bind callback is registered, or the chain still waits for
    the watch, the promise of [serve] is pending. *)
Definition chain_inv (s : State) : Prop :=
  (listen_cb s = true → serve_promise s = Some Pending ∧ stage s = AwaitBind) ∧
  (∀ r a, stage s = AwaitFirst r a →
     listen_cb s = false ∧ serve_promise s = Some Pending).

Lemma deliver_chain_inv s ev : chain_inv s → chain_inv (deliver s ev).
Proof.
  intros [HJ HK]. destruct s; cbn in HJ, HK.
  destruct listen_cb0.
  - destruct (HJ eq_refl) as [-> ->]. clear HJ HK.
    destruct ev; unfold deliver, exec, handle;
      unfold mbind at 1, M_bind; unfold mbind at 1, M_bind; unfold gets at 1;
      rewrite ?for_each_invalid, ?for_each_done; crunch.
    all: split; [intros [=]; auto | intros r' a' [=]].
    all: split; reflexivity.
  - clear HJ. destruct stage0 as [|r a| |];
      [|destruct (HK r a eq_refl) as [_ ->]| |]; clear HK.
    all: destruct ev; unfold deliver, exec, handle;
      unfold mbind at 1, M_bind; unfold mbind at 1, M_bind; unfold gets at 1;
      rewrite ?for_each_invalid, ?for_each_done; crunch.
    all: split; [intros [=]; auto | intros r' a' [=]; auto].
Qed.

Lemma deliver_all_chain_inv evs s :
  chain_inv s → chain_inv (deliver_all s evs).
Proof.
  revert s; induction evs as [|ev evs IH]; intros s Hs; [done|].
  rewrite deliver_all_cons. by apply IH, deliver_chain_inv.
Qed.

Lemma deliver_serve_promise_settled s ev p :
  serve_promise s = Some p → settled p = true →
  serve_promise (deliver s ev) = Some p.
Proof.
  intros Hp Hs. destruct p; try discriminate.
  all: split_event s ev; cbn in Hp; subst; crunch; reflexivity.
Qed.

Lemma deliver_all_serve_promise_settled evs s p :
  serve_promise s = Some p → settled p = true →
  serve_promise (deliver_all s evs) = Some p.
Proof.
  revert s; induction evs as [|ev evs IH]; intros s Hp Hs; [done|].
  rewrite deliver_all_cons. apply IH; [|done].
  by apply deliver_serve_promise_settled.
Qed.

Lemma listen_callback_settles s error :
  listen_cb s = true → serve_promise s = Some Pending →
  stage s = AwaitBind →
  serve_promise (deliver s (ListenCallback error))
  = Some (match error with Some e => Rejected e | None => Fulfilled end).
Proof.
  intros Hl Hp Hg. destruct s; cbn in Hl, Hp, Hg; subst.
  unfold deliver, exec, handle. crunch; reflexivity.
Qed.

Lemma serve_chain_inv args c es :
  chain_inv (serve args (new_state c es)).2.
Proof.
  unfold chain_inv.
  destruct (strict_eq (watch args) "memory") eqn:Hm,
    (strict_eq (mode args) "dev") eqn:Hd, (truthy (watch args)) eqn:Hw.
  all: unfold_serve; rewrite ?Hm, ?Hd, ?Hw; cbn.
  all: split; [intros ?; try discriminate; auto | intros r' a' [=]; auto].
Qed.

(** C7. Whenever the bind callback of [app.listen] is registered and is
    then invoked, the promise returned by [serve] is settled by it:
    rejected with the error the callback reports, fulfilled when it
    reports none; the promise keeps that outcome afterwards. *)
Theorem serve_listen_outcome (c : Configuration) (es : list Effect)
    (args : Args) (evs : list Event) (error : option JsError) :
  let r := (serve args (new_state c es)).1 in
  let s1 := (serve args (new_state c es)).2 in
  let s2 := deliver_all s1 evs in
  let s3 := deliver s2 (ListenCallback error) in
  listen_cb s2 = true →
  r = ServePromise ∧
  promise_of r s2 = Some Pending ∧
  promise_of r s3
  = Some (match error with Some e => Rejected e | None => Fulfilled end) ∧
  (∀ post, promise_of r (deliver_all s3 post) = promise_of r s3).
Proof.
  cbn zeta. intros Hl.
  assert (Hr : (serve args (new_state c es)).1 = ServePromise).
  { unfold serve. unfold mbind, M_bind.
    repeat (match goal with |- context [let '(_, _) := ?m in _] =>
              destruct m end). reflexivity. }
  rewrite Hr. cbn [promise_of].
  pose proof (deliver_all_chain_inv evs _ (serve_chain_inv args c es))
    as [HJ _].
  destruct (HJ Hl) as [Hp Hg].
  pose proof (listen_callback_settles _ error Hl Hp Hg) as Hp3.
  split; [done|]. split; [done|]. split; [done|].
  intros post. rewrite Hp3. apply deliver_all_serve_promise_settled; [done|].
  by destruct error.
Qed.

(** ** Effects added by callbacks *)

Definition callback_effect (e : Effect) : bool :=
  match e with
  | ELogUpdate _ | ESpinnerStart | ESpinnerStop | ELogger _ _ _ | EListen _ =>
      true
  | _ => false
  end.

Lemma invalid_hooks_callback_effects hs :
  Forall (λ e, callback_effect e = true) (hs ≫= invalid_hook_effects).
Proof.
  induction hs as [|[] hs IH]; [constructor|].
  cbn. by repeat constructor.
Qed.

Lemma done_hooks_callback_effects st c hs :
  Forall (λ e, callback_effect e = true) (hs ≫= done_hook_effects st c).
Proof.
  induction hs as [|[] hs IH]; [constructor| |]; cbn; by repeat constructor.
Qed.

Lemma deliver_effects s ev :
  ∃ l, effects (deliver s ev) = effects s ++ l ∧
       Forall (λ e, callback_effect e = true) l.
Proof.
  split_event s ev; crunch.
  all: first
    [ by (exists []; rewrite app_nil_r)
    | rewrite <- ?app_assoc; eexists; split; [reflexivity|];
      repeat (apply Forall_app; split);
      auto using invalid_hooks_callback_effects, done_hooks_callback_effects;
      by repeat constructor ].
Qed.

Lemma deliver_all_effects evs s :
  ∃ l, effects (deliver_all s evs) = effects s ++ l ∧
       Forall (λ e, callback_effect e = true) l.
Proof.
  revert s; induction evs as [|ev evs IH]; intros s.
  - exists []. by rewrite app_nil_r.
  - rewrite deliver_all_cons.
    destruct (IH (deliver s ev)) as (l2 & -> & Hl2).
    destruct (deliver_effects s ev) as (l1 & -> & Hl1).
    exists (l1 ++ l2). rewrite app_assoc. split; [done|].
    by apply Forall_app.
Qed.

(** Callbacks add none of the effects selected by [p]. *)
Lemma deliver_all_filter (p : Effect → bool) evs s :
  (∀ e, callback_effect e = true → p e = false) →
  List.filter p (effects (deliver_all s evs)) = List.filter p (effects s).
Proof.
  intros Hp. destruct (deliver_all_effects evs s) as (l & -> & Hl).
  rewrite List.filter_app.
  replace (List.filter p l) with (@nil Effect); [by rewrite app_nil_r|].
  induction Hl as [|e l He _ IH]; [done|].
  cbn. by rewrite (Hp e He).
Qed.

(** ** The command *)

Lemma strict_eq_true v lit : strict_eq v lit = true ↔ v = JStr lit.
Proof. unfold strict_eq. apply bool_decide_eq_true. Qed.

Lemma strict_eq_false v lit : strict_eq v lit = false ↔ v ≠ JStr lit.
Proof. unfold strict_eq. apply bool_decide_eq_false. Qed.

Definition is_factory (e : Effect) : bool :=
  match e with EFactory _ _ => true | _ => false end.

Ltac run_cases args :=
  destruct (truthy (serve_flag args)) eqn:Hserve,
    (truthy (watch args)) eqn:Hwatch,
    (strict_eq (watch args) "memory") eqn:Hmemory,
    (strict_eq (mode args) "dev") eqn:Hdev,
    (strict_eq (mode args) "test") eqn:Htest.

Lemma run_factory_effects hc args :
  List.filter is_factory (effects (run hc args).2)
  = [EFactory (select_config args (default empty_rc hc)).1
       (default empty_rc hc)].
Proof.
  unfold run, select_config, build.
  run_cases args; unfold_serve; rewrite ?Hmemory, ?Hdev, ?Hwatch; cbn;
    reflexivity.
Qed.

(** C2. Every run calls exactly one configuration factory, chosen by
    [args.mode]: the dev factory for ['dev'], the test factory for
    ['test'], and the dist factory for any other value; no event that
    follows adds a factory call. *)
Theorem run_selects_one_factory (hc : option RawConfig) (args : Args)
    (evs : list Event) :
  let rc := default empty_rc hc in
  let calls :=
    List.filter is_factory (effects (deliver_all (run hc args).2 evs)) in
  (mode args = JStr "dev" →
     calls = [EFactory DevFactory rc] ∧
     select_config args rc = (DevFactory, devConfigFactory rc)) ∧
  (mode args = JStr "test" →
     calls = [EFactory TestFactory rc] ∧
     select_config args rc = (TestFactory, testConfigFactory rc)) ∧
  (mode args ≠ JStr "dev" → mode args ≠ JStr "test" →
     calls = [EFactory DistFactory rc] ∧
     select_config args rc = (DistFactory, distConfigFactory rc)).
Proof.
  cbn zeta.
  rewrite deliver_all_filter by (by intros []).
  rewrite run_factory_effects. unfold select_config.
  split; [|split].
  - intros Hd%strict_eq_true. by rewrite Hd.
  - intros Ht. assert (Hd : strict_eq (mode args) "dev" = false)
      by (apply strict_eq_false; by rewrite Ht).
    apply strict_eq_true in Ht. by rewrite Hd, Ht.
  - intros Hd%strict_eq_false Ht%strict_eq_false. by rewrite Hd, Ht.
Qed.

Definition is_express (e : Effect) : bool :=
  match e with EExpress => true | _ => false end.

Definition is_compiler_run (e : Effect) : bool :=
  match e with ECompilerRun => true | _ => false end.

Definition is_compiler_watch (e : Effect) : bool :=
  match e with ECompilerWatch _ => true | _ => false end.

Definition is_warn (e : Effect) : bool :=
  match e with EWarn _ => true | _ => false end.

Lemma memory_is_truthy v : strict_eq v "memory" = true → truthy v = true.
Proof. intros ->%strict_eq_true. reflexivity. Qed.

Lemma serve_returns args s : (serve args s).1 = ServePromise.
Proof.
  unfold serve. unfold mbind, M_bind.
  repeat (match goal with |- context [let '(_, _) := ?m in _] =>
            destruct m end). reflexivity.
Qed.

(** C3. [args.serve] is looked at first, [args.watch] second: a truthy
    [serve] runs [serve]; otherwise a truthy [watch] runs [fileWatch],
    after a warning when [watch] is ['memory']; otherwise [build] runs.
    The promise returned tells the three paths apart, [express()] is
    called on the first path only and [compiler.run] on the last only. *)
Theorem run_priority_chain (hc : option RawConfig) (args : Args) :
  let rc := default empty_rc hc in
  let f := (select_config args rc).1 in
  let c := (select_config args rc).2 in
  let s0 := new_state c [ESilenceConsoleLog; EFactory f rc] in
  let warned :=
    add_effects
      [EWarn "Memory watch requires the dev server. Using file watch instead..."]
      s0 in
  let r := (run hc args).1 in
  let s := (run hc args).2 in
  ((truthy (serve_flag args) = true ∧
    run hc args = serve args s0 ∧ r = ServePromise) ∨
   (truthy (serve_flag args) = false ∧ truthy (watch args) = true ∧
    run hc args
    = fileWatch args (if strict_eq (watch args) "memory" then warned else s0) ∧
    r = WatchPromise) ∨
   (truthy (serve_flag args) = false ∧ truthy (watch args) = false ∧
    run hc args = build s0 ∧ r = BuildPromise)) ∧
  existsb is_express (effects s) = truthy (serve_flag args) ∧
  existsb is_compiler_run (effects s)
  = negb (truthy (serve_flag args)) && negb (truthy (watch args)) ∧
  existsb is_warn (effects s) = strict_eq (watch args) "memory" &&
    (negb (truthy (serve_flag args)) || negb (strict_eq (mode args) "dev")).
Proof.
  cbn zeta. unfold run.
  destruct (select_config args (default empty_rc hc)) as [f c] eqn:Hsel.
  cbn [fst snd].
  destruct (strict_eq (watch args) "memory") eqn:Hmemory.
  - rewrite (memory_is_truthy _ Hmemory).
    destruct (truthy (serve_flag args)) eqn:Hserve.
    + split; [left; by rewrite serve_returns|].
      destruct (strict_eq (mode args) "dev") eqn:Hdev;
        unfold_serve; rewrite ?Hmemory, ?Hdev, ?(memory_is_truthy _ Hmemory);
        cbn; by rewrite ?Hmemory.
    + split; [right; left; by repeat split|].
      cbn. repeat split; apply andb_false_r.
  - destruct (truthy (serve_flag args)) eqn:Hserve.
    + split; [left; by rewrite serve_returns|].
      destruct (truthy (watch args)) eqn:Hwatch;
        unfold_serve; rewrite ?Hmemory, ?Hwatch; cbn; by rewrite ?Hmemory.
    + destruct (truthy (watch args)) eqn:Hwatch.
      * split; [right; left; by repeat split|]. by cbn.
      * split; [right; right; by repeat split|]. by cbn.
Qed.

(** C5. With [args.watch] equal to ['memory'] and [args.mode] different
    from ['dev'], a run warns once, starts the file watch, and leaves
    the configuration as the factory made it, whatever callbacks follow:
    the entry arrays and the plugin list are those of the factory, and
    no middleware is mounted. *)
Theorem memory_without_dev_falls_back (hc : option RawConfig) (args : Args)
    (evs : list Event) :
  watch args = JStr "memory" → mode args ≠ JStr "dev" →
  let c := (select_config args (default empty_rc hc)).2 in
  let r := (run hc args).1 in
  let s := (run hc args).2 in
  List.filter is_warn (effects s)
  = [EWarn (if truthy (serve_flag args)
            then "Memory watch requires `--mode=dev`. Using file watch instead..."
            else "Memory watch requires the dev server. Using file watch instead...")] ∧
  List.filter is_compiler_watch (effects s) = [ECompilerWatch (watchOptions c)] ∧
  watch_cb s = Some args ∧
  watch_promise s = Some Pending ∧
  (truthy (serve_flag args) = false → r = WatchPromise) ∧
  (truthy (serve_flag args) = true →
     r = ServePromise ∧ stage s = AwaitFirst WatchPromise args) ∧
  config (deliver_all s evs) = c ∧
  arrays (config (deliver_all s evs)) = arrays c ∧
  entry (config (deliver_all s evs)) = entry c ∧
  plugins (config (deliver_all s evs)) = plugins c ∧
  app (deliver_all s evs) = [].
Proof.
  intros Hm%strict_eq_true Hd%strict_eq_false. cbn zeta.
  rewrite deliver_all_config, deliver_all_app. unfold run.
  destruct (select_config args (default empty_rc hc)) as [f c].
  cbn [fst snd]. rewrite (memory_is_truthy _ Hm).
  destruct (truthy (serve_flag args)) eqn:Hserve.
  - unfold_serve. rewrite ?Hm, ?Hd, ?(memory_is_truthy _ Hm). cbn.
    rewrite ?Hm. cbn. by repeat split.
  - unfold_serve. rewrite ?Hm. cbn. by repeat split.
Qed.

(** C10. In [serve] the static handler over the output directory is
    mounted exactly when [args.watch] is not ['memory'], and the
    in-memory middlewares exactly when [args.watch] is ['memory'] and
    [args.mode] is ['dev']; with ['memory'] and another mode the file
    watch runs and the application has no handler at all.  Callbacks
    never change what is mounted. *)
Theorem serve_static_mount (c : Configuration) (es : list Effect)
    (args : Args) (evs : list Event) :
  let s1 := (serve args (new_state c es)).2 in
  let s := deliver_all s1 evs in
  app s
  = (if strict_eq (watch args) "memory" then
       if strict_eq (mode args) "dev"
       then [WebpackDevMiddleware "silent" true "/" (watchOptions c);
             WebpackHotMiddleware 10000]
       else []
     else [Static (outputDir c)]) ∧
  ((∃ dir, Static dir ∈ app s) ↔ watch args ≠ JStr "memory") ∧
  (watch args = JStr "memory" → mode args ≠ JStr "dev" →
     app s = [] ∧ watch_cb s = Some args ∧
     List.filter is_compiler_watch (effects s1)
     = List.filter is_compiler_watch es ++ [ECompilerWatch (watchOptions c)]).
Proof.
  cbn zeta. rewrite deliver_all_app, deliver_all_watch_cb.
  assert (Happ : app (serve args (new_state c es)).2
    = (if strict_eq (watch args) "memory" then
         if strict_eq (mode args) "dev"
         then [WebpackDevMiddleware "silent" true "/" (watchOptions c);
               WebpackHotMiddleware 10000]
         else []
       else [Static (outputDir c)])).
  { destruct (strict_eq (watch args) "memory") eqn:Hm,
      (strict_eq (mode args) "dev") eqn:Hd, (truthy (watch args)) eqn:Hw.
    all: unfold_serve; rewrite ?Hm, ?Hd, ?Hw; cbn; reflexivity. }
  split; [done|]. split.
  - rewrite Happ, <- strict_eq_false.
    destruct (strict_eq (watch args) "memory") eqn:Hm.
    + split; [|done]. intros [dir Hin].
      destruct (strict_eq (mode args) "dev");
        repeat (apply elem_of_cons in Hin as [Hin|Hin]; [discriminate|]);
        by apply elem_of_nil in Hin.
    + split; [done|]. intros _. exists (outputDir c). apply list_elem_of_here.
  - intros Hm%strict_eq_true Hd%strict_eq_false.
    rewrite Happ, Hm, Hd. split; [done|].
    unfold_serve. rewrite ?Hm, ?Hd, ?(memory_is_truthy _ Hm). cbn.
    rewrite ?Hm. cbn. split; [done|].
    rewrite !List.filter_app. cbn. by rewrite !app_nil_r.
Qed.

(** ** The in-memory watch *)

(** The number of entry names that refer to the array [l]. *)
Definition sharers (e : gmap string loc) (l : loc) : nat :=
  length (filter (λ k, e !! k = Some l) (object_keys e)).

Lemma foldl_prepend_client (e : gmap string loc) (ks : list string)
    (h : gmap loc (list string)) (l : loc) :
  foldl (prepend_client e) h ks !! l
  = (λ mods,
       replicate (length (filter (λ k, e !! k = Some l) ks))
         hotReloadClientRef ++ mods) <$> h !! l.
Proof.
  revert h; induction ks as [|k ks IH]; intros h.
  - cbn. by destruct (h !! l).
  - cbn [foldl]. rewrite IH. unfold prepend_client, unshift.
    rewrite filter_cons. destruct (e !! k) as [l'|] eqn:Hk.
    + destruct (decide (l' = l)) as [->|Hne].
      * rewrite lookup_alter_eq, decide_True by done.
        destruct (h !! l) as [m|]; [|done]. cbn. f_equal.
        rewrite cons_middle, app_assoc, <- replicate_cons_app.
        reflexivity.
      * rewrite lookup_alter_ne by done.
        rewrite decide_False; [done|congruence].
    + rewrite decide_False; [done|congruence].
Qed.

(** The order in which the entry names are visited is irrelevant. *)
Lemma foldl_prepend_client_perm (e : gmap string loc) (ks1 ks2 : list string)
    (h : gmap loc (list string)) :
  ks1 ≡ₚ ks2 →
  foldl (prepend_client e) h ks1 = foldl (prepend_client e) h ks2.
Proof.
  intros Hp. apply map_eq; intros l. rewrite !foldl_prepend_client.
  assert (Hlen : length (filter (λ k, e !! k = Some l) ks1)
                 = length (filter (λ k, e !! k = Some l) ks2))
    by (by rewrite Hp).
  by rewrite Hlen.
Qed.

Lemma filter_unique_key (P : string → Prop) `{∀ k, Decision (P k)}
    (ks : list string) (name : string) :
  NoDup ks → name ∈ ks → P name → (∀ k, P k → k = name) →
  filter P ks = [name].
Proof.
  intros Hnd Hin Hname Huniq.
  induction ks as [|k ks IH]; [by apply elem_of_nil in Hin|].
  apply NoDup_cons in Hnd as [Hk Hnd]. rewrite filter_cons.
  destruct (decide (k = name)) as [->|Hne].
  - rewrite decide_True by done. f_equal.
    clear IH Hin. induction ks as [|k' ks IH]; [done|].
    apply NoDup_cons in Hnd as [_ Hnd]. apply not_elem_of_cons in Hk as [Hk' Hk].
    rewrite filter_cons, decide_False; [by apply IH|].
    intros HP. by apply Huniq in HP.
  - rewrite decide_False by (intros HP; by apply Huniq in HP).
    apply IH; [done|]. by apply elem_of_cons in Hin as [->|Hin].
Qed.

Lemma object_keys_elem {A} (o : gmap string A) k x :
  o !! k = Some x → k ∈ object_keys o.
Proof.
  intros Hk. unfold object_keys. apply list_elem_of_fmap.
  exists (k, x). split; [done|]. by apply elem_of_map_to_list.
Qed.

Lemma sharers_pos (e : gmap string loc) name l :
  e !! name = Some l → (1 ≤ sharers e l)%nat.
Proof.
  intros Hk. unfold sharers.
  assert (Hin : name ∈ filter (λ k, e !! k = Some l) (object_keys e)).
  { apply list_elem_of_filter. split; [done|]. by eapply object_keys_elem. }
  destruct (filter _ _); [by apply elem_of_nil in Hin|cbn; lia].
Qed.

Lemma sharers_unshared (e : gmap string loc) name l :
  e !! name = Some l → (∀ other, e !! other = Some l → other = name) →
  sharers e l = 1.
Proof.
  intros Hk Huniq. unfold sharers.
  rewrite (filter_unique_key _ _ name); [done| | |done|done].
  - apply NoDup_fst_map_to_list.
  - by eapply object_keys_elem.
Qed.

Lemma memoryWatch_config args s :
  config (memoryWatch args s).2
  = with_arrays
      (foldl (prepend_client (entry (config s))) (arrays (config s))
         (object_keys (entry (config s))))
      (with_plugins
         (plugins (config s) ++
          [HotModuleReplacementPlugin; NoEmitOnErrorsPlugin])
         (config s)).
Proof. destruct s. reflexivity. Qed.

(** C4. [memoryWatch] puts the hot-reload client reference in front of
    the module list of every named entry point, once for each entry name
    that refers to that list, and keeps the modules already there in
    their order behind it; a list that belongs to one entry name only,
    as in [{main: ['a.js']}], becomes the reference followed by the
    original modules.  The plugin list gets the hot-module-replacement
    and the no-emit-on-errors plugins appended: two more plugins, each
    earlier plugin still at its index.  Callbacks change none of this. *)
Theorem memoryWatch_injects (s : State) (args : Args) (evs : list Event)
    (name : string) (l : loc) (mods : list string) :
  entry (config s) !! name = Some l →
  arrays (config s) !! l = Some mods →
  let c := config s in
  let c' := config (deliver_all (memoryWatch args s).2 evs) in
  hotReloadClientRef
  = "webpack-hot-middleware/client?timeout=20000&reload=true" ∧
  entry c' = entry c ∧
  arrays c' !! l
  = Some (replicate (sharers (entry c) l) hotReloadClientRef ++ mods) ∧
  (1 ≤ sharers (entry c) l)%nat ∧
  ((∀ other, entry c !! other = Some l → other = name) →
     arrays c' !! l = Some (hotReloadClientRef :: mods)) ∧
  plugins c'
  = plugins c ++ [HotModuleReplacementPlugin; NoEmitOnErrorsPlugin] ∧
  length (plugins c') = length (plugins c) + 2 ∧
  (∀ i p, plugins c !! i = Some p → plugins c' !! i = Some p).
Proof.
  intros Hname Hl. cbn zeta.
  rewrite deliver_all_config, memoryWatch_config. cbn [entry arrays plugins
    with_arrays with_plugins].
  rewrite foldl_prepend_client, Hl. cbn [fmap option_fmap option_map].
  fold (sharers (entry (config s)) l).
  split; [reflexivity|]. split; [reflexivity|]. split; [reflexivity|].
  split; [by eapply sharers_pos|]. split; [|split; [reflexivity|split]].
  - intros Huniq. by rewrite (sharers_unshared _ name).
  - rewrite length_app. reflexivity.
  - intros i p Hi. by apply lookup_app_l_Some.
Qed.

(** C8. [memoryWatch] works with a reconnect timeout of 20 seconds
    (20000 ms).  It mounts two middlewares behind those already on the
    application, the in-memory asset server first (log level ['silent'],
    [noInfo], public path ['/'], the watch options of the configuration)
    and the hot-reload transport second, whose heartbeat is half the
    timeout.  The promise it returns is fulfilled when it returns: it
    starts no watch of its own and registers no callback to wait for, so
    that [serve] asks for the listener before any compiler event. *)
Theorem memoryWatch_middlewares (s : State) (args : Args) :
  let r := (memoryWatch args s).1 in
  let s' := (memoryWatch args s).2 in
  timeout = 20000%Z ∧
  app s'
  = app s ++ [WebpackDevMiddleware "silent" true "/" (watchOptions (config s));
              WebpackHotMiddleware (timeout / 2)] ∧
  (timeout / 2 = 10000)%Z ∧
  length (app s') = length (app s) + 2 ∧
  r = ResolvedPromise ∧
  promise_of r s' = Some Fulfilled ∧
  effects s'
  = effects s ++ [EWebpack (config s'); EFixMultipleWatchTrigger;
                  EOraStart "building"] ∧
  done_hooks s' = done_hooks s ++ [StopSpinner; LogListening args] ∧
  watch_cb s' = watch_cb s ∧ run_cb s' = run_cb s ∧
  listen_cb s' = listen_cb s ∧
  (∀ c es, watch args = JStr "memory" → mode args = JStr "dev" →
     let s1 := (serve args (new_state c es)).2 in
     listen_cb s1 = true ∧ stage s1 = AwaitBind ∧
     app s1 = [WebpackDevMiddleware "silent" true "/" (watchOptions c);
               WebpackHotMiddleware (timeout / 2)]).
Proof.
  cbn zeta. destruct s. unfold memoryWatch.
  cbv [mbind M_bind mret M_ret gets modify emit app_use createWatchCompiler
       createCompiler fst snd].
  cbn [app effects done_hooks watch_cb run_cb listen_cb config set_config
       set_app add_effects set_done_hooks set_invalid_hooks promise_of].
  repeat (split; [first [reflexivity | by rewrite <- ?app_assoc
                        | by rewrite length_app]|]).
  intros c es Hm%strict_eq_true Hd%strict_eq_true. cbn zeta.
  unfold_serve. rewrite ?Hm, ?Hd. cbn. by rewrite ?Hm.
Qed.

(** ** Status messages *)

Lemma append_length (a b : string) :
  String.length (a +:+ b) = String.length a + String.length b.
Proof. induction a as [|ch a IH]; simpl; [done|]. by rewrite IH. Qed.

Lemma append_dots_differs (a : string) : a +:+ "..." ≠ a.
Proof.
  intros Heq. apply (f_equal String.length) in Heq.
  rewrite append_length in Heq. cbn in Heq. lia.
Qed.

(** C9. The watch callback of [fileWatch] passes the logger the message
    ["Listening on port "] followed by the port when [args.serve] is
    truthy and ["watching..."] otherwise; the done hook of [memoryWatch]
    passes ["Listening on port "], the port and three dots.  For every
    port the two serving messages differ, by exactly those dots. *)
Theorem status_messages (c : Configuration) (es : list Effect)
    (args : Args) (err : option JsError) (st : Stats) :
  let sw := (fileWatch args (new_state c es)).2 in
  let sm := (memoryWatch args (new_state c es)).2 in
  let listening := "Listening on port " +:+ template (port args) in
  effects (deliver sw (WatchCallback err (Some st)))
  = effects sw ++
    [ELogger (toJson st) c
       (Some (if truthy (serve_flag args) then listening else "watching..."))] ∧
  effects (deliver sm (CompilerDone st))
  = effects sm ++
    [ESpinnerStop; ELogger (toJson st) (config sm) (Some (listening +:+ "..."))] ∧
  listening +:+ "..." ≠ listening ∧
  template (JNum 9999) = "9999".
Proof.
  cbn zeta. split; [|split; [|split]].
  - destruct err; unfold_m; reflexivity.
  - unfold deliver, exec, handle.
    unfold mbind at 1, M_bind; unfold mbind at 1, M_bind; unfold gets at 1.
    rewrite for_each_done.
    cbv [memoryWatch reactions mbind M_bind mret M_ret gets modify emit
         app_use createWatchCompiler createCompiler fst snd
         set_config set_app add_effects set_done_hooks set_invalid_hooks
         new_state stage done_hooks effects config].
    cbn [app list_bind done_hook_effects].
    rewrite <- !app_assoc. reflexivity.
  - apply append_dots_differs.
  - reflexivity.
Qed.

End Properties.

(** * A concrete project *)

(** Stats and raw configurations are numbered, errors are messages. *)
Definition demo_collaborators : Collaborators :=
  {| Stats := nat; StatsJson := nat; toJson := λ n, n;
     JsError := string; RawConfig := nat; empty_rc := 0;
     WatchOptions := unit; PluginObj := string |}.

#[local] Existing Instance demo_collaborators.

Definition demo_stats (n : nat) : Stats := n.
Definition demo_error (msg : string) : JsError := msg.
Definition demo_rc (n : nat) : RawConfig := n.

(** [{entry: {main: ['a.js']}, plugins: [define], output: {path: '/out'}}] *)
Definition demo_config : Configuration :=
  {| entry := {["main" := 1%positive]};
     arrays := {[1%positive := ["a.js"]]};
     plugins := [FactoryPlugin "define"];
     output := Some {| path := Some "/out" |};
     watchOptions := () |}.

(** Two entry names that refer to one array. *)
Definition shared_config : Configuration :=
  {| entry := <["main" := 1%positive]> {["admin" := 1%positive]};
     arrays := {[1%positive := ["a.js"]]};
     plugins := [];
     output := None;
     watchOptions := () |}.

Definition demo_host : Host :=
  {| devConfigFactory := λ _, demo_config;
     testConfigFactory := λ _, with_plugins [] demo_config;
     distConfigFactory := λ _, with_plugins [FactoryPlugin "minify"] demo_config;
     cwd := "/work" |}.

#[local] Existing Instance demo_host.

Definition demo_args (m w s : JsVal) : Args :=
  {| mode := m; watch := w; serve_flag := s; port := JNum 9999 |}.

Example run_build_effects :
  effects (run None (demo_args (JStr "dist") JUndefined JUndefined)).2
  = [ESilenceConsoleLog; EFactory DistFactory (demo_rc 0);
     EWebpack (with_plugins [FactoryPlugin "minify"] demo_config);
     EFixMultipleWatchTrigger; EOraStart "building"; ECompilerRun].
Proof. reflexivity. Qed.

Example run_serve_memory_dev_entry :
  let s := (run (Some (demo_rc 7)) (demo_args (JStr "dev") (JStr "memory") (JBool true))).2 in
  arrays (config s) !! 1%positive
  = Some ["webpack-hot-middleware/client?timeout=20000&reload=true"; "a.js"] ∧
  plugins (config s)
  = [FactoryPlugin "define"; HotModuleReplacementPlugin; NoEmitOnErrorsPlugin] ∧
  List.filter is_factory (effects s) = [EFactory DevFactory (demo_rc 7)] ∧
  listen_cb s = true.
Proof. vm_compute. repeat split. Qed.

Example shared_array_prepended_twice :
  arrays (config (memoryWatch (demo_args (JStr "dev") (JStr "memory") (JBool true))
                    (new_state shared_config [])).2) !! 1%positive
  = Some [hotReloadClientRef; hotReloadClientRef; "a.js"].
Proof. vm_compute. reflexivity. Qed.

Example file_watch_messages :
  runningMessage (demo_args (JStr "dev") (JBool true) (JBool true))
  = "Listening on port 9999" ∧
  runningMessage (demo_args (JStr "dev") (JBool true) JUndefined)
  = "watching..." ∧
  listeningMessage (demo_args (JStr "dev") (JStr "memory") (JBool true))
  = "Listening on port 9999...".
Proof. vm_compute. repeat split. Qed.

(** A failed first compile rejects the watch, and with it [serve], which
    then never asks for the listener. *)
Example serve_watch_error_rejects :
  let s1 := (run None (demo_args (JStr "dist") (JStr "file") (JBool true))).2 in
  let s2 := deliver s1 (WatchCallback (Some (demo_error "boom")) None) in
  serve_promise s2 = Some (Rejected (demo_error "boom")) ∧ listen_cb s2 = false ∧
  app s2 = [Static "/out"].
Proof. vm_compute. repeat split. Qed.

Example build_error_rejects :
  let s1 := (run None (demo_args (JStr "dist") JUndefined JUndefined)).2 in
  let s2 := deliver s1 (RunCallback (Some (demo_error "boom")) (Some (demo_stats 4))) in
  build_promise s2 = Some (Rejected (demo_error "boom")) ∧
  List.filter is_logger (effects s2)
  = [ELogger 4 (with_plugins [FactoryPlugin "minify"] demo_config) None].
Proof. vm_compute. repeat split. Qed.

Example serve_memory_dist_has_no_handler :
  let s := (run None (demo_args (JStr "dist") (JStr "memory") (JBool true))).2 in
  app s = [] ∧
  List.filter is_warn (effects s)
  = [EWarn "Memory watch requires `--mode=dev`. Using file watch instead..."].
Proof. vm_compute. repeat split. Qed.

Example watch_memory_without_serve_warns :
  let s := (run None (demo_args (JStr "dev") (JStr "memory") JUndefined)).2 in
  config s = demo_config ∧
  List.filter is_warn (effects s)
  = [EWarn "Memory watch requires the dev server. Using file watch instead..."].
Proof. vm_compute. repeat split. Qed.

Lemma run_selects_one_factory_witness :
  List.filter is_factory
    (effects (deliver_all
       (run (Some (demo_rc 3)) (demo_args (JStr "test") JUndefined JUndefined)).2
       [RunCallback None (Some (demo_stats 5))]))
  = [EFactory TestFactory (demo_rc 3)].
Proof.
  destruct (run_selects_one_factory (H:=demo_collaborators)
              (Some (demo_rc 3))
              (demo_args (JStr "test") JUndefined JUndefined)
              [RunCallback None (Some (demo_stats 5))])
    as (_ & Htest & _).
  apply Htest. reflexivity.
Defined.

Lemma memoryWatch_injects_witness :
  let args := demo_args (JStr "dev") (JStr "memory") (JBool true) in
  let c' := config (deliver_all (memoryWatch args (new_state demo_config [])).2
                      [CompilerDone (demo_stats 1)]) in
  arrays c' !! 1%positive = Some [hotReloadClientRef; "a.js"] ∧
  length (plugins c') = 3.
Proof.
  destruct (memoryWatch_injects (H:=demo_collaborators) (new_state demo_config [])
              (demo_args (JStr "dev") (JStr "memory") (JBool true))
              [CompilerDone (demo_stats 1)] "main" 1%positive ["a.js"])
    as (_ & _ & _ & _ & Hown & _ & Hlen & _);
    [reflexivity | reflexivity |].
  split; [|exact Hlen].
  apply Hown. intros other Hother.
  change (({["main" := 1%positive]} : gmap string loc) !! other
          = Some 1%positive) in Hother.
  apply lookup_singleton_Some in Hother. symmetry. apply Hother.
Defined.

Lemma memory_without_dev_falls_back_witness :
  let args := demo_args (JStr "dist") (JStr "memory") (JBool true) in
  config (deliver_all (run None args).2
            [CompilerDone (demo_stats 1); WatchCallback None (Some (demo_stats 1))])
  = with_plugins [FactoryPlugin "minify"] demo_config.
Proof.
  destruct (memory_without_dev_falls_back (H:=demo_collaborators) None
              (demo_args (JStr "dist") (JStr "memory") (JBool true))
              [CompilerDone (demo_stats 1);
               WatchCallback None (Some (demo_stats 1))])
    as (_ & _ & _ & _ & _ & _ & Hconfig & _);
    [reflexivity | discriminate |].
  exact Hconfig.
Defined.

Lemma fileWatch_settles_once_witness :
  let args := demo_args (JStr "dist") (JBool true) JUndefined in
  let s1 := (fileWatch args (new_state demo_config [])).2 in
  let s3 := deliver (deliver_all s1 [CompilerInvalid; CompilerDone (demo_stats 1)])
              (WatchCallback (Some (demo_error "boom")) None) in
  promise_of WatchPromise s3 = Some (Rejected (demo_error "boom")).
Proof.
  destruct (fileWatch_settles_once (H:=demo_collaborators)
              (new_state demo_config [])
              (demo_args (JStr "dist") (JBool true) JUndefined)
              [CompilerInvalid; CompilerDone (demo_stats 1)]
              (Some (demo_error "boom")) None)
    as (_ & _ & Hrejected & _);
    [repeat constructor |].
  exact Hrejected.
Defined.

(** The watch is armed and its first compile succeeds; a later compile
    then fails with no stats.  The promise stays fulfilled and the
    callback leaves the state as it was: the error is dropped, not
    logged. *)
Lemma later_watch_error_is_dropped :
  let args := demo_args (JStr "dist") (JBool true) JUndefined in
  let s1 := (fileWatch args (new_state demo_config [])).2 in
  let s3 := deliver s1 (WatchCallback None (Some (demo_stats 1))) in
  let s5 := deliver s3 (WatchCallback (Some (demo_error "boom")) None) in
  watch_promise s3 = Some Fulfilled ∧
  s5 = s3 ∧
  List.filter is_logger (effects s5)
  = [ELogger (demo_stats 1) demo_config (Some "watching...")] ∧
  ¬ later_error_logged s3 (demo_error "boom") None.
Proof.
  cbn zeta.
  assert (Hsame :
    deliver
      (deliver (fileWatch (demo_args (JStr "dist") (JBool true) JUndefined)
                  (new_state demo_config [])).2
         (WatchCallback None (Some (demo_stats 1))))
      (WatchCallback (Some (demo_error "boom")) None)
    = deliver (fileWatch (demo_args (JStr "dist") (JBool true) JUndefined)
                 (new_state demo_config [])).2
        (WatchCallback None (Some (demo_stats 1))))
    by (vm_compute; reflexivity).
  split; [vm_compute; reflexivity|]. split; [exact Hsame|].
  split; [vm_compute; reflexivity|].
  intros (l & Hl & Hlog). rewrite Hsame in Hl.
  rewrite <- (app_nil_r (effects _)) in Hl at 1.
  apply app_inv_head in Hl. subst l. discriminate.
Qed.

Lemma serve_listen_outcome_witness :
  let args := demo_args (JStr "dist") (JStr "file") (JBool true) in
  let s1 := (serve args (new_state demo_config [])).2 in
  let s2 := deliver_all s1 [WatchCallback None (Some (demo_stats 1))] in
  promise_of ServePromise (deliver s2 (ListenCallback (Some (demo_error "EADDRINUSE"))))
  = Some (Rejected (demo_error "EADDRINUSE")).
Proof.
  destruct (serve_listen_outcome (H:=demo_collaborators) demo_config []
              (demo_args (JStr "dist") (JStr "file") (JBool true))
              [WatchCallback None (Some (demo_stats 1))]
              (Some (demo_error "EADDRINUSE")))
    as (_ & _ & Hrejected & _);
    [reflexivity |].
  exact Hrejected.
Defined.

(** * More of the module

    The spinner, the transcript of logger calls, the listener, the
    compiler a run creates, the static root, the frame of [memoryWatch]
    and the options the command registers. *)

Arguments listeningMessage : simpl never.
Arguments runningMessage : simpl never.

Section Sessions.
Context `{Collaborators} `{!Host}.

Ltac open_event ev :=
  destruct ev; unfold deliver, exec, handle;
  unfold mbind at 1, M_bind; unfold mbind at 1, M_bind; unfold gets at 1;
  rewrite ?for_each_invalid, ?for_each_done.

Definition spin_step (b : bool) (e : Effect) : bool :=
  match e with
  | EOraStart _ | ESpinnerStart => true
  | ESpinnerStop => false
  | _ => b
  end.

Definition spinning (es : list Effect) : bool := foldl spin_step false es.

Definition event_spin (b : bool) (ev : Event) : bool :=
  match ev with
  | CompilerInvalid => true
  | CompilerDone _ => false
  | _ => b
  end.

Definition watch_session (s : State) : Prop :=
  invalid_hooks s = [RestartSpinner] ∧
  (done_hooks s = [StopSpinner] ∨ ∃ a, done_hooks s = [StopSpinner; LogListening a]) ∧
  run_cb s = false.

Lemma spinning_app es l : spinning (es ++ l) = foldl spin_step (spinning es) l.
Proof. unfold spinning. apply foldl_app. Qed.

Lemma watch_session_deliver s ev :
  watch_session s →
  watch_session (deliver s ev) ∧
  spinning (effects (deliver s ev)) = event_spin (spinning (effects s)) ev.
Proof.
  intros (Hi & Hd & Hr). destruct s; cbn in Hi, Hd, Hr; subst.
  destruct Hd as [->|[a ->]].
  all: open_event ev.
  all: crunch.
  all: unfold watch_session; cbn; rewrite ?spinning_app; cbn.
  all: repeat split; eauto.
Qed.

Lemma watch_session_deliver_all evs s :
  watch_session s →
  watch_session (deliver_all s evs) ∧
  spinning (effects (deliver_all s evs))
  = foldl event_spin (spinning (effects s)) evs.
Proof.
  revert s; induction evs as [|ev evs IH]; intros s Hs; [done|].
  rewrite deliver_all_cons.
  destruct (watch_session_deliver s ev Hs) as [Hs' Hspin].
  destruct (IH _ Hs') as [Hs'' ->]. by rewrite Hspin.
Qed.

Lemma run_watch_session hc args :
  truthy (watch args) = true →
  watch_session (run hc args).2 ∧ spinning (effects (run hc args).2) = true.
Proof.
  intros Hw. unfold run.
  destruct (select_config args (default empty_rc hc)) as [f c].
  rewrite Hw.
  destruct (truthy (serve_flag args)) eqn:Hserve,
    (strict_eq (watch args) "memory") eqn:Hm,
    (strict_eq (mode args) "dev") eqn:Hd.
  all: unfold_serve; rewrite ?Hm, ?Hd, ?Hw; cbn; rewrite ?Hm; cbn.
  all: unfold watch_session; cbn; rewrite ?spinning_app; cbn.
  all: repeat split; eauto.
Qed.

(** X1. In every run that watches, the spinner started with the compiler
    spins until the next 'done' event and again from the next 'invalid'
    event on: after any callbacks it spins exactly when the last of
    these two compiler events, if any, was 'invalid'.  The watch
    callback, with or without an error, never stops it. *)
Theorem spinner_follows_compiler_events (hc : option RawConfig)
    (args : Args) (evs : list Event) :
  truthy (watch args) = true →
  spinning (effects (deliver_all (run hc args).2 evs))
  = foldl event_spin true evs.
Proof.
  intros Hw. destruct (run_watch_session hc args Hw) as [Hs Hspin].
  destruct (watch_session_deliver_all evs _ Hs) as [_ ->].
  by rewrite Hspin.
Qed.

Definition is_run_callback (ev : Event) : bool :=
  match ev with RunCallback _ _ => true | _ => false end.

Lemma idle_deliver s ev :
  invalid_hooks s = [] → done_hooks s = [] → watch_cb s = None →
  listen_cb s = false → stage s = NoChain → is_run_callback ev = false →
  deliver s ev = s.
Proof.
  intros Hi Hd Hw Hl Hg Hev. destruct s; cbn in Hi, Hd, Hw, Hl, Hg; subst.
  open_event ev; try discriminate; crunch; by rewrite ?app_nil_r.
Qed.

Lemma idle_deliver_all s evs :
  invalid_hooks s = [] → done_hooks s = [] → watch_cb s = None →
  listen_cb s = false → stage s = NoChain →
  Forall (λ ev, is_run_callback ev = false) evs →
  deliver_all s evs = s.
Proof.
  intros Hi Hd Hw Hl Hg Hevs.
  induction Hevs as [|ev evs Hev _ IH]; [done|].
  by rewrite deliver_all_cons, idle_deliver.
Qed.

(** X2. In a one-shot build the compiler has no hooks: until the run
    callback is invoked no event changes anything and the spinner
    spins.  The callback stops the spinner whatever it reports, and no
    later event starts it again. *)
Theorem build_spinner (hc : option RawConfig) (args : Args)
    (pre post : list Event) (err : option JsError) (stats : option Stats) :
  truthy (serve_flag args) = false → truthy (watch args) = false →
  Forall (λ ev, is_run_callback ev = false) pre →
  let s1 := (run hc args).2 in
  let s2 := deliver (deliver_all s1 pre) (RunCallback err stats) in
  deliver_all s1 pre = s1 ∧
  spinning (effects s1) = true ∧
  spinning (effects (deliver_all s2 post)) = false.
Proof.
  intros Hserve Hwatch Hpre. cbn zeta. unfold run.
  destruct (select_config args (default empty_rc hc)) as [f c].
  rewrite Hserve, Hwatch.
  rewrite idle_deliver_all by done.
  split; [done|]. split.
  - unfold_m. unfold spinning. rewrite !foldl_app. reflexivity.
  - rewrite quiet_deliver_all.
    + destruct err, stats; unfold_m; unfold spinning;
        rewrite !foldl_app; reflexivity.
    + destruct err, stats; by unfold quiet.
Qed.

(** ** The transcript of logger calls *)

Definition watch_log (args : Args) (c : Configuration) (ev : Event)
    : option Effect :=
  match ev with
  | WatchCallback _ (Some st) =>
      Some (ELogger (toJson st) c (Some (runningMessage args)))
  | _ => None
  end.

Definition done_log (args : Args) (c : Configuration) (ev : Event)
    : option Effect :=
  match ev with
  | CompilerDone st =>
      Some (ELogger (toJson st) c (Some (listeningMessage args)))
  | _ => None
  end.

Definition file_session (args : Args) (c : Configuration) (s : State) : Prop :=
  invalid_hooks s = [RestartSpinner] ∧ done_hooks s = [StopSpinner] ∧
  run_cb s = false ∧ watch_cb s = Some args ∧ config s = c.

Definition memory_session (args : Args) (c : Configuration) (s : State) : Prop :=
  invalid_hooks s = [RestartSpinner] ∧
  done_hooks s = [StopSpinner; LogListening args] ∧
  run_cb s = false ∧ watch_cb s = None ∧ config s = c.

Lemma file_session_deliver args c s ev :
  file_session args c s →
  file_session args c (deliver s ev) ∧
  List.filter is_logger (effects (deliver s ev))
  = List.filter is_logger (effects s) ++ option_list (watch_log args c ev).
Proof.
  intros (Hi & Hd & Hr & Hw & Hc).
  destruct s; cbn in Hi, Hd, Hr, Hw, Hc; subst.
  open_event ev; crunch.
  all: unfold file_session; cbn; rewrite ?List.filter_app; cbn.
  all: rewrite ?app_nil_r; repeat split; eauto.
Qed.

Lemma memory_session_deliver args c s ev :
  memory_session args c s →
  memory_session args c (deliver s ev) ∧
  List.filter is_logger (effects (deliver s ev))
  = List.filter is_logger (effects s) ++ option_list (done_log args c ev).
Proof.
  intros (Hi & Hd & Hr & Hw & Hc).
  destruct s; cbn in Hi, Hd, Hr, Hw, Hc; subst.
  open_event ev; crunch.
  all: unfold memory_session; cbn; rewrite ?List.filter_app; cbn.
  all: rewrite ?app_nil_r; repeat split; eauto.
Qed.

Lemma file_session_deliver_all args c evs s :
  file_session args c s →
  List.filter is_logger (effects (deliver_all s evs))
  = List.filter is_logger (effects s) ++ omap (watch_log args c) evs.
Proof.
  revert s; induction evs as [|ev evs IH]; intros s Hs.
  - cbn. by rewrite app_nil_r.
  - rewrite deliver_all_cons.
    destruct (file_session_deliver args c s ev Hs) as [Hs' Hlog].
    rewrite (IH _ Hs'), Hlog, <- app_assoc. f_equal.
    cbn. by destruct (watch_log args c ev).
Qed.

Lemma memory_session_deliver_all args c evs s :
  memory_session args c s →
  List.filter is_logger (effects (deliver_all s evs))
  = List.filter is_logger (effects s) ++ omap (done_log args c) evs.
Proof.
  revert s; induction evs as [|ev evs IH]; intros s Hs.
  - cbn. by rewrite app_nil_r.
  - rewrite deliver_all_cons.
    destruct (memory_session_deliver args c s ev Hs) as [Hs' Hlog].
    rewrite (IH _ Hs'), Hlog, <- app_assoc. f_equal.
    cbn. by destruct (done_log args c ev).
Qed.

(** X3. In a run that watches files (at the top level or as the
    fallback of [serve]), the logger is called once for every invocation
    of the watch callback that carries stats, in that order, with the
    factory's configuration and the running message, and at no other
    time: 'done' events and callbacks without stats log nothing. *)
Theorem file_watch_log (hc : option RawConfig) (args : Args)
    (evs : list Event) :
  truthy (watch args) = true →
  truthy (serve_flag args) && strict_eq (watch args) "memory"
    && strict_eq (mode args) "dev" = false →
  let c := (select_config args (default empty_rc hc)).2 in
  List.filter is_logger (effects (deliver_all (run hc args).2 evs))
  = omap (watch_log args c) evs.
Proof.
  intros Hw Hnot. cbn zeta.
  assert (Hs : file_session args (select_config args (default empty_rc hc)).2
                 (run hc args).2 ∧
               List.filter is_logger (effects (run hc args).2) = []).
  { unfold run.
    destruct (select_config args (default empty_rc hc)) as [f c].
    rewrite Hw. cbn [snd].
    destruct (truthy (serve_flag args)) eqn:Hserve,
      (strict_eq (watch args) "memory") eqn:Hm,
      (strict_eq (mode args) "dev") eqn:Hd; try discriminate.
    all: unfold_serve; rewrite ?Hm, ?Hd, ?Hw; cbn; rewrite ?Hm; cbn.
    all: unfold file_session; cbn; by repeat split. }
  destruct Hs as [Hs Hnil].
  by rewrite (file_session_deliver_all _ _ _ _ Hs), Hnil.
Qed.

(** X4. In a run that serves from memory, the logger is called once for
    every 'done' event of the compiler, in that order, with the
    configuration as [memoryWatch] left it and the listening message,
    and at no other time. *)
Theorem memory_watch_log (hc : option RawConfig) (args : Args)
    (evs : list Event) :
  truthy (serve_flag args) = true →
  watch args = JStr "memory" → mode args = JStr "dev" →
  let s1 := (run hc args).2 in
  List.filter is_logger (effects (deliver_all s1 evs))
  = omap (done_log args (config s1)) evs.
Proof.
  intros Hserve Hm%strict_eq_true Hd%strict_eq_true. cbn zeta.
  assert (Hs : memory_session args (config (run hc args).2) (run hc args).2 ∧
               List.filter is_logger (effects (run hc args).2) = []).
  { unfold run.
    destruct (select_config args (default empty_rc hc)) as [f c].
    rewrite Hserve. cbn [snd].
    unfold_serve; rewrite ?Hm, ?Hd; cbn; rewrite ?Hm; cbn.
    unfold memory_session; cbn; by repeat split. }
  destruct Hs as [Hs Hnil].
  by rewrite (memory_session_deliver_all _ _ _ _ Hs), Hnil.
Qed.


(** ** The listener *)

Definition is_listen (e : Effect) : bool :=
  match e with EListen _ => true | _ => false end.

Lemma invalid_hooks_no_listen hs :
  List.filter is_listen (hs ≫= invalid_hook_effects) = [].
Proof. induction hs as [|[] hs IH]; [done|]. by cbn. Qed.

Lemma done_hooks_no_listen st c hs :
  List.filter is_listen (hs ≫= done_hook_effects st c) = [].
Proof. induction hs as [|[] hs IH]; [done| |]; by cbn. Qed.

(** A step either leaves the listener alone, or it ends the wait of
    the chain and requests the listener on the awaited port. *)
Definition listen_step (s s' : State) : Prop :=
  (List.filter is_listen (effects s') = List.filter is_listen (effects s) ∧
   (stage s' = stage s ∨ stage s' = ChainSettled)) ∨
  (∃ r a, stage s = AwaitFirst r a ∧ stage s' = AwaitBind ∧
     List.filter is_listen (effects s')
     = List.filter is_listen (effects s) ++ [EListen (port a)]).

Lemma deliver_listen s ev : listen_step s (deliver s ev).
Proof.
  destruct s. open_event ev; crunch.
  all: unfold listen_step; cbn.
  all: rewrite ?List.filter_app, ?invalid_hooks_no_listen,
         ?done_hooks_no_listen; cbn; rewrite ?app_nil_r.
  all: first [ left; split; [reflexivity | auto]
             | right; do 2 eexists; repeat split; reflexivity ].
Qed.

(** What [run] leaves behind: either no listener was requested and the
    chain, if any, awaits with the arguments of the run, or the listener
    was requested once, on [args.port]. *)
Definition listen_inv (args : Args) (n : list Effect) (s : State) : Prop :=
  (List.filter is_listen (effects s) = n ∧
   (stage s = NoChain ∨ stage s = ChainSettled ∨
    ∃ r, stage s = AwaitFirst r args)) ∨
  (List.filter is_listen (effects s) = n ++ [EListen (port args)] ∧
   (stage s = AwaitBind ∨ stage s = ChainSettled)).

Lemma listen_inv_deliver args n s ev :
  listen_inv args n s → listen_inv args n (deliver s ev).
Proof.
  intros Hinv.
  destruct (deliver_listen s ev) as [[Hsame Hst]|(r & a & Hst & Hst' & Hadd)].
  - destruct Hinv as [[Hn Hg]|[Hn Hg]]; [left|right]; rewrite Hsame.
    + split; [done|]. destruct Hst as [->| ->]; auto.
    + split; [done|]. destruct Hst as [->| ->]; auto.
  - destruct Hinv as [[Hn Hg]|[Hn Hg]].
    + right. rewrite Hadd, Hn. destruct Hg as [Hg|[Hg|[r' Hg]]]; try congruence.
      rewrite Hst in Hg. injection Hg as -> ->. auto.
    + destruct Hg; congruence.
Qed.

Lemma listen_inv_deliver_all args n evs s :
  listen_inv args n s → listen_inv args n (deliver_all s evs).
Proof.
  revert s; induction evs as [|ev evs IH]; intros s Hs; [done|].
  rewrite deliver_all_cons. by apply IH, listen_inv_deliver.
Qed.

Lemma run_listen_inv hc args : listen_inv args [] (run hc args).2.
Proof.
  unfold run. destruct (select_config args (default empty_rc hc)) as [f c].
  destruct (truthy (serve_flag args)) eqn:Hserve,
    (truthy (watch args)) eqn:Hw,
    (strict_eq (watch args) "memory") eqn:Hm,
    (strict_eq (mode args) "dev") eqn:Hd.
  all: unfold_serve; unfold build; unfold_serve;
    rewrite ?Hm, ?Hd, ?Hw; cbn; rewrite ?Hm; cbn.
  all: unfold listen_inv; cbn; eauto 6.
Qed.

Lemma no_chain_deliver_all evs s :
  stage s = NoChain ∨ stage s = ChainSettled →
  List.filter is_listen (effects (deliver_all s evs))
  = List.filter is_listen (effects s).
Proof.
  revert s; induction evs as [|ev evs IH]; intros s Hs; [done|].
  rewrite deliver_all_cons.
  destruct (deliver_listen s ev) as [[Hsame Hst]|(r & a & Hst & _)].
  - rewrite IH, Hsame; [done|].
    destruct Hst as [->|Hst]; auto.
  - destruct Hs; congruence.
Qed.

(** X5. Whatever the arguments and whatever callbacks follow, a run
    calls [app.listen] at most once, and only with [args.port]; a run
    without [args.serve] never calls it. *)
Theorem listens_at_most_once (hc : option RawConfig) (args : Args)
    (evs : list Event) :
  let listens :=
    List.filter is_listen (effects (deliver_all (run hc args).2 evs)) in
  (listens = [] ∨ listens = [EListen (port args)]) ∧
  (truthy (serve_flag args) = false → listens = []).
Proof.
  cbn zeta.
  pose proof (listen_inv_deliver_all args [] evs _ (run_listen_inv hc args))
    as Hinv.
  split.
  - destruct Hinv as [[-> _]|[-> _]]; auto.
  - intros Hserve.
    assert (Hs : stage (run hc args).2 = NoChain ∧
                 List.filter is_listen (effects (run hc args).2) = []).
    { unfold run.
      destruct (select_config args (default empty_rc hc)) as [f c].
      rewrite Hserve.
      destruct (truthy (watch args)), (strict_eq (watch args) "memory");
        by split. }
    destruct Hs as [Hs Hnil]. rewrite no_chain_deliver_all; auto.
Qed.


(** ** [serve] behind a file watch *)

(** The chain of [serve] waits for the promise of [fileWatch]. *)
Definition waiting (args : Args) (s : State) : Prop :=
  stage s = AwaitFirst WatchPromise args ∧
  watch_promise s = Some Pending ∧ serve_promise s = Some Pending ∧
  watch_cb s = Some args ∧ listen_cb s = false ∧
  List.filter is_listen (effects s) = [].

(** What the first invocation of the watch callback leaves. *)
Definition first_callback_result (args : Args) (err : option JsError)
    (s : State) : Prop :=
  match err with
  | Some e =>
      serve_promise s = Some (Rejected e) ∧ stage s = ChainSettled ∧
      listen_cb s = false ∧ List.filter is_listen (effects s) = []
  | None =>
      serve_promise s = Some Pending ∧ stage s = AwaitBind ∧
      listen_cb s = true ∧
      List.filter is_listen (effects s) = [EListen (port args)]
  end.

Lemma waiting_deliver_other args s ev :
  waiting args s → is_watch_callback ev = false →
  waiting args (deliver s ev).
Proof.
  intros (Hg & Hw & Hs & Hcb & Hl & Hn) Hev.
  destruct s; cbn in Hg, Hw, Hs, Hcb, Hl, Hn; subst.
  open_event ev; try discriminate; crunch.
  all: unfold waiting; cbn.
  all: rewrite ?List.filter_app, ?invalid_hooks_no_listen,
         ?done_hooks_no_listen, ?Hn; cbn.
  all: by repeat split.
Qed.

Lemma waiting_deliver_all args s evs :
  waiting args s → Forall (λ ev, is_watch_callback ev = false) evs →
  waiting args (deliver_all s evs).
Proof.
  intros Hs Hevs. revert s Hs.
  induction Hevs as [|ev evs Hev _ IH]; intros s Hs; [done|].
  rewrite deliver_all_cons. by apply IH, waiting_deliver_other.
Qed.

Lemma waiting_first_callback args s err stats :
  waiting args s →
  first_callback_result args err (deliver s (WatchCallback err stats)).
Proof.
  intros (Hg & Hw & Hs & Hcb & Hl & Hn).
  destruct s; cbn in Hg, Hw, Hs, Hcb, Hl, Hn; subst.
  unfold deliver, exec, handle. destruct err, stats; crunch.
  all: unfold first_callback_result; cbn.
  all: rewrite ?List.filter_app, ?Hn; cbn.
  all: by repeat split.
Qed.

Lemma run_waiting hc args :
  truthy (serve_flag args) = true → truthy (watch args) = true →
  strict_eq (watch args) "memory" && strict_eq (mode args) "dev" = false →
  waiting args (run hc args).2.
Proof.
  intros Hserve Hw Hnot. unfold run.
  destruct (select_config args (default empty_rc hc)) as [f c].
  rewrite Hserve.
  destruct (strict_eq (watch args) "memory") eqn:Hm,
    (strict_eq (mode args) "dev") eqn:Hd; try discriminate.
  all: unfold_serve; rewrite ?Hm, ?Hd, ?Hw; cbn; rewrite ?Hm; cbn.
  all: by unfold waiting.
Qed.

(** X6. When [serve] runs behind a file watch, nothing is listened to
    and the returned promise is pending until the watch callback is
    invoked for the first time.  If that invocation reports an error,
    the promise of [serve] is rejected with it and [app.listen] is never
    called, whatever follows; if it reports none, [app.listen] is called
    at once with [args.port] and the promise stays pending for the bind
    callback. *)
Theorem serve_waits_for_first_compile (hc : option RawConfig) (args : Args)
    (pre post : list Event) (err : option JsError) (stats : option Stats) :
  truthy (serve_flag args) = true → truthy (watch args) = true →
  strict_eq (watch args) "memory" && strict_eq (mode args) "dev" = false →
  Forall (λ ev, is_watch_callback ev = false) pre →
  let s2 := deliver_all (run hc args).2 pre in
  let s3 := deliver s2 (WatchCallback err stats) in
  let s4 := deliver_all s3 post in
  serve_promise s2 = Some Pending ∧
  List.filter is_listen (effects s2) = [] ∧
  match err with
  | Some e =>
      serve_promise s4 = Some (Rejected e) ∧
      List.filter is_listen (effects s4) = []
  | None =>
      serve_promise s3 = Some Pending ∧ listen_cb s3 = true ∧
      List.filter is_listen (effects s3) = [EListen (port args)]
  end.
Proof.
  intros Hserve Hw Hnot Hpre. cbn zeta.
  pose proof (waiting_deliver_all args _ pre
                (run_waiting hc args Hserve Hw Hnot) Hpre) as Hwait.
  pose proof (waiting_first_callback args _ err stats Hwait) as Hres.
  destruct Hwait as (_ & _ & Hp & _ & _ & Hn).
  split; [done|]. split; [done|].
  destruct err as [e|]; cbn in Hres.
  - destruct Hres as (Hrej & Hg & _ & Hnone). split.
    + by apply deliver_all_serve_promise_settled.
    + rewrite no_chain_deliver_all; auto.
  - destruct Hres as (Hpend & _ & Hl & Hone). done.
Qed.

(** ** The compiler of a run *)

Definition is_webpack (e : Effect) : bool :=
  match e with EWebpack _ => true | _ => false end.

Definition is_fix (e : Effect) : bool :=
  match e with EFixMultipleWatchTrigger => true | _ => false end.

(** X7. A run creates at most one compiler, and none at all when it
    serves without watching; every compiler created gets the
    duplicate-trigger fix.  webpack receives the configuration as it is
    when the run returns: the factory's own, except when serving from
    memory in dev mode, where it is the configuration [memoryWatch] has
    extended.  Callbacks create no compiler. *)
Theorem compiler_created_once (hc : option RawConfig) (args : Args)
    (evs : list Event) :
  let s1 := (run hc args).2 in
  let es := effects (deliver_all s1 evs) in
  List.filter is_webpack es
  = (if truthy (serve_flag args) && negb (truthy (watch args))
     then [] else [EWebpack (config s1)]) ∧
  length (List.filter is_fix es) = length (List.filter is_webpack es) ∧
  (truthy (serve_flag args) && strict_eq (watch args) "memory"
     && strict_eq (mode args) "dev" = false →
   config s1 = (select_config args (default empty_rc hc)).2).
Proof.
  cbn zeta. rewrite !deliver_all_filter by (by intros []).
  unfold run. destruct (select_config args (default empty_rc hc)) as [f c].
  destruct (strict_eq (watch args) "memory") eqn:Hm.
  - rewrite (memory_is_truthy _ Hm).
    destruct (truthy (serve_flag args)) eqn:Hserve,
      (strict_eq (mode args) "dev") eqn:Hd.
    all: unfold_serve; rewrite ?Hm, ?Hd, ?(memory_is_truthy _ Hm); cbn;
      rewrite ?Hm; cbn.
    all: repeat split; try done.
  - destruct (truthy (serve_flag args)) eqn:Hserve,
      (truthy (watch args)) eqn:Hw.
    all: unfold_serve; unfold build; unfold_serve;
      rewrite ?Hm, ?Hw; cbn; rewrite ?Hm; cbn.
    all: repeat split; try done.
Qed.


(** ** The static root *)

Lemma eqb_false_nonempty (p : string) : String.eqb p "" = false → p ≠ "".
Proof. intros Hp ->. discriminate. Qed.

(** X8. When [serve] mounts the static handler, its root is the output
    path of the configuration if there is one and it is not the empty
    string, and the working directory of the process in every other
    case; it is never the empty string unless the working directory
    is. *)
Theorem static_root (c : Configuration) (es : list Effect) (args : Args)
    (evs : list Event) :
  watch args ≠ JStr "memory" → cwd ≠ "" →
  let s := deliver_all (serve args (new_state c es)).2 evs in
  ∃ dir, app s = [Static dir] ∧ dir ≠ "" ∧
    (∀ p, output c = Some {| path := Some p |} → p ≠ "" → dir = p) ∧
    (output c = None → dir = cwd) ∧
    (output c = Some {| path := None |} → dir = cwd) ∧
    (output c = Some {| path := Some "" |} → dir = cwd).
Proof.
  intros Hm%strict_eq_false Hcwd. cbn zeta. rewrite deliver_all_app.
  exists (outputDir c). split.
  - destruct (truthy (watch args)) eqn:Hw;
      unfold_serve; rewrite ?Hm, ?Hw; cbn; reflexivity.
  - unfold outputDir. split; [|split; [|split; [|split]]].
    + destruct (output c) as [[[p|]]|]; cbn; try done.
      destruct (String.eqb p "") eqn:Hp; [done|].
      by apply eqb_false_nonempty.
    + intros p -> Hp. cbn.
      destruct (String.eqb p "") eqn:Heq; [|done].
      by apply String.eqb_eq in Heq.
    + by intros ->.
    + by intros ->.
    + by intros ->.
Qed.

(** ** What [memoryWatch] leaves alone *)

Lemma sharers_none (e : gmap string loc) (l : loc) :
  (∀ name, e !! name ≠ Some l) → sharers e l = 0.
Proof.
  intros Hnone. unfold sharers.
  induction (object_keys e) as [|k ks IH]; [done|].
  rewrite filter_cons, decide_False; [done|apply Hnone].
Qed.

(** X9. [memoryWatch] changes the configuration only where it is meant
    to: the entry names, the output and the watch options are kept, no
    array is created or removed, an array that no entry name refers to
    keeps its modules, and every other array keeps its modules as a
    suffix behind the client references. *)
Theorem memoryWatch_frame (s : State) (args : Args) :
  let c := config s in
  let c' := config (memoryWatch args s).2 in
  entry c' = entry c ∧ output c' = output c ∧
  watchOptions c' = watchOptions c ∧
  dom (arrays c') = dom (arrays c) ∧
  (∀ l, (∀ name, entry c !! name ≠ Some l) →
     arrays c' !! l = arrays c !! l) ∧
  (∀ l mods', arrays c' !! l = Some mods' →
     ∃ mods, arrays c !! l = Some mods ∧
       mods' = replicate (sharers (entry c) l) hotReloadClientRef ++ mods).
Proof.
  cbn zeta. rewrite memoryWatch_config.
  cbn [entry output watchOptions arrays with_arrays with_plugins].
  split; [done|]. split; [done|]. split; [done|]. split; [|split].
  - apply set_eq. intros l.
    rewrite !elem_of_dom, foldl_prepend_client. apply fmap_is_Some.
  - intros l Hnone. rewrite foldl_prepend_client.
    fold (sharers (entry (config s)) l). rewrite sharers_none by done.
    by destruct (arrays (config s) !! l).
  - intros l mods'. rewrite foldl_prepend_client.
    fold (sharers (entry (config s)) l).
    destruct (arrays (config s) !! l) as [mods|]; [|done].
    intros [= <-]. eauto.
Qed.

(** X10. [memoryWatch] is not idempotent: it changes the configuration
    object in place, so that a second call on the same configuration
    prepends the client reference again and appends the two plugins
    again. *)
Theorem memoryWatch_twice (s : State) (args : Args)
    (name : string) (l : loc) (mods : list string) :
  entry (config s) !! name = Some l →
  arrays (config s) !! l = Some mods →
  let c := config s in
  let c'' := config (memoryWatch args (memoryWatch args s).2).2 in
  arrays c'' !! l
  = Some (replicate (2 * sharers (entry c) l) hotReloadClientRef ++ mods) ∧
  plugins c''
  = plugins c ++ [HotModuleReplacementPlugin; NoEmitOnErrorsPlugin;
                  HotModuleReplacementPlugin; NoEmitOnErrorsPlugin] ∧
  c'' ≠ config (memoryWatch args s).2.
Proof.
  intros Hname Hl. cbn zeta.
  assert (Harr : arrays (config (memoryWatch args (memoryWatch args s).2).2)
                   !! l
    = Some (replicate (2 * sharers (entry (config s)) l) hotReloadClientRef
            ++ mods)).
  { rewrite (memoryWatch_config args (memoryWatch args s).2).
    cbn [arrays with_arrays with_plugins entry].
    rewrite foldl_prepend_client.
    rewrite (memoryWatch_config args s).
    cbn [arrays with_arrays with_plugins entry].
    rewrite foldl_prepend_client, Hl. cbn [fmap option_fmap option_map].
    unfold object_keys. fold (object_keys (entry (config s))).
    fold (sharers (entry (config s)) l).
    replace (2 * sharers (entry (config s)) l)%nat
      with (sharers (entry (config s)) l + sharers (entry (config s)) l)%nat
      by lia.
    by rewrite replicate_add, app_assoc. }
  assert (Hpl : plugins (config (memoryWatch args (memoryWatch args s).2).2)
    = plugins (config s) ++
      [HotModuleReplacementPlugin; NoEmitOnErrorsPlugin;
       HotModuleReplacementPlugin; NoEmitOnErrorsPlugin]).
  { rewrite (memoryWatch_config args (memoryWatch args s).2).
    cbn [plugins with_arrays with_plugins].
    rewrite (memoryWatch_config args s).
    cbn [plugins with_arrays with_plugins]. by rewrite <- app_assoc. }
  split; [done|]. split; [done|].
  intros Heq. apply (f_equal (λ c, length (plugins c))) in Heq.
  rewrite Hpl in Heq. rewrite (memoryWatch_config args s) in Heq.
  cbn [plugins with_arrays with_plugins] in Heq.
  rewrite !length_app in Heq. cbn in Heq. lia.
Qed.


(** ** The options the command registers *)

(** The settings object passed to [options(name, settings)]. *)
Record OptionConfig := {
  describe : string;
  alias : string;
  default_value : option JsVal;       (* default *)
  choices : option (list string);
  type : option string
}.

(** The double quote character. *)
Definition dq : string := String (Ascii.ascii_of_nat 34) EmptyString.

(** [register(options)]: the calls made to [options], in order. *)
Definition register : list (string * OptionConfig) :=
  [("mode",
    {| describe := "the output mode"; alias := "m";
       default_value := Some (JStr "dist");
       choices := Some ["dist"; "dev"; "test"]; type := None |});
   ("watch",
    {| describe :=
         "watch for file changes: " +:+ dq +:+ "memory" +:+ dq +:+
         " (dev mode only) or " +:+ dq +:+ "file" +:+ dq +:+
         " (all modes; default)";
       alias := "w"; default_value := None; choices := None; type := None |});
   ("serve",
    {| describe := "start a webserver"; alias := "s";
       default_value := None; choices := None; type := Some "boolean" |});
   ("port",
    {| describe :=
         "used in conjunction with the serve option to specify the webserver port";
       alias := "p"; default_value := Some (JNum 9999); choices := None;
       type := Some "number" |})].

Definition registered (name : string) : option OptionConfig :=
  (list_to_map register : gmap string OptionConfig) !! name.

(** The value an option has when the command line does not give it. *)
Definition registered_default (name : string) : JsVal :=
  default JUndefined (registered name ≫= default_value).

Definition registered_choices (name : string) : list string :=
  default [] (registered name ≫= choices).

(** The module a factory is imported from: [./dev.config], ... *)
Definition factory_name (f : Factory) : string :=
  match f with
  | DevFactory => "dev"
  | TestFactory => "test"
  | DistFactory => "dist"
  end.

(** X11. Each mode the command offers as a choice selects the factory
    of that name in [run], and the default mode is one of the choices.
    A run on the registered defaults, with no watch and no serve, is a
    one-shot build with the dist factory.  No two options share a name
    or an alias. *)
Theorem registered_modes_select_their_factory (m : string) (args : Args)
    (hc : option RawConfig) :
  m ∈ registered_choices "mode" → mode args = JStr m →
  factory_name (select_config args (default empty_rc hc)).1 = m ∧
  registered_default "mode" ∈ (JStr <$> registered_choices "mode") ∧
  (mode args = registered_default "mode" →
   truthy (watch args) = false → truthy (serve_flag args) = false →
   (run hc args).1 = BuildPromise ∧
   List.filter is_factory (effects (run hc args).2)
   = [EFactory DistFactory (default empty_rc hc)]) ∧
  NoDup (register.*1 ++ (alias ∘ snd <$> register)).
Proof.
  intros Hm Hmode. split; [|split; [|split]].
  - unfold select_config. rewrite Hmode.
    change (registered_choices "mode") with ["dist"; "dev"; "test"] in Hm.
    repeat (apply elem_of_cons in Hm as [->|Hm]; [reflexivity|]).
    by apply elem_of_nil in Hm.
  - change (registered_default "mode") with (JStr "dist").
    change (registered_choices "mode") with ["dist"; "dev"; "test"].
    apply list_elem_of_here.
  - change (registered_default "mode") with (JStr "dist").
    intros Hdist Hw Hs. unfold run, select_config.
    rewrite Hdist, Hw, Hs. by split.
  - apply (bool_decide_unpack _). vm_compute. exact I.
Qed.


(** ** Serving without a watch *)

(** No compiler hook and no compiler callback is registered, and the
    chain of [serve] is not waiting. *)
Definition silent (s : State) : Prop :=
  invalid_hooks s = [] ∧ done_hooks s = [] ∧ run_cb s = false ∧
  watch_cb s = None ∧
  (stage s = NoChain ∨ stage s = AwaitBind ∨ stage s = ChainSettled).

Definition unchanged_effects (s s' : State) : Prop :=
  silent s' ∧ effects s' = effects s ∧ config s' = config s.

Lemma silent_deliver s ev : silent s → unchanged_effects s (deliver s ev).
Proof.
  intros (Hi & Hd & Hr & Hw & Hg).
  destruct s; cbn in Hi, Hd, Hr, Hw, Hg; subst.
  destruct Hg as [->|[->| ->]].
  all: open_event ev; crunch.
  all: unfold unchanged_effects, silent; cbn; rewrite ?app_nil_r.
  all: repeat split; auto.
Qed.

Lemma silent_deliver_all evs s :
  silent s → effects (deliver_all s evs) = effects s.
Proof.
  revert s; induction evs as [|ev evs IH]; intros s Hs; [done|].
  rewrite deliver_all_cons.
  destruct (silent_deliver s ev Hs) as (Hs' & He & _).
  by rewrite IH, He.
Qed.

(** X12. A run that serves without watching compiles nothing and
    reports nothing: it silences [console.log], calls the factory,
    creates the application and asks for the listener, and no callback
    that follows adds another effect; in particular the logger is never
    called and no spinner is started. *)
Theorem serve_only_is_silent (hc : option RawConfig) (args : Args)
    (evs : list Event) :
  truthy (serve_flag args) = true → truthy (watch args) = false →
  let rc := default empty_rc hc in
  let s1 := (run hc args).2 in
  effects (deliver_all s1 evs)
  = [ESilenceConsoleLog; EFactory (select_config args rc).1 rc;
     EExpress; EListen (port args)] ∧
  app (deliver_all s1 evs) = [Static (outputDir (select_config args rc).2)] ∧
  listen_cb s1 = true ∧ serve_promise s1 = Some Pending.
Proof.
  intros Hserve Hw. cbn zeta. rewrite deliver_all_app.
  assert (Hm : strict_eq (watch args) "memory" = false).
  { destruct (strict_eq (watch args) "memory") eqn:Hm; [|done].
    apply memory_is_truthy in Hm. congruence. }
  assert (Hs : silent (run hc args).2 ∧
    effects (run hc args).2
    = [ESilenceConsoleLog;
       EFactory (select_config args (default empty_rc hc)).1
         (default empty_rc hc);
       EExpress; EListen (port args)] ∧
    app (run hc args).2
    = [Static (outputDir (select_config args (default empty_rc hc)).2)] ∧
    listen_cb (run hc args).2 = true ∧
    serve_promise (run hc args).2 = Some Pending).
  { unfold run.
    destruct (select_config args (default empty_rc hc)) as [f c].
    rewrite Hserve. unfold_serve. rewrite ?Hm, ?Hw. cbn.
    unfold silent; cbn. repeat split; auto. }
  destruct Hs as (Hs & He & Ha & Hl & Hp).
  by rewrite silent_deliver_all.
Qed.

(** ** The run callback of [build] *)

(** X13. The callback of a one-shot build treats the error and the
    stats independently: the promise is rejected exactly when an error
    is reported and fulfilled otherwise, and the logger is called
    exactly when stats are reported, also beside an error.  A callback
    with neither fulfils the promise without logging. *)
Theorem build_callback_cases (c : Configuration) (es : list Effect)
    (err : option JsError) (stats : option Stats) (evs : list Event) :
  let s1 := (build (new_state c es)).2 in
  let s2 := deliver_all (deliver s1 (RunCallback err stats)) evs in
  build_promise s2
  = Some (match err with Some e => Rejected e | None => Fulfilled end) ∧
  effects s2
  = effects s1 ++ [ESpinnerStop] ++
    match stats with
    | Some st => [ELogger (toJson st) c None]
    | None => []
    end ∧
  run_cb s2 = false.
Proof.
  cbn zeta. rewrite quiet_deliver_all.
  - destruct err, stats; unfold_m; cbn; by rewrite <- ?app_assoc.
  - destruct err, stats; by unfold quiet.
Qed.

End Sessions.

(** * The concrete project, continued *)

Example watch_error_keeps_spinner :
  let s1 := (run None (demo_args (JStr "dist") (JStr "file") JUndefined)).2 in
  spinning (effects (deliver s1 (WatchCallback (Some (demo_error "boom")) None)))
  = true ∧
  spinning (effects (deliver s1 (CompilerDone (demo_stats 1)))) = false.
Proof. vm_compute. by split. Qed.

Lemma spinner_follows_compiler_events_witness :
  spinning (effects (deliver_all
    (run None (demo_args (JStr "dist") (JStr "file") JUndefined)).2
    [CompilerDone (demo_stats 1); CompilerInvalid;
     WatchCallback (Some (demo_error "boom")) None]))
  = true.
Proof.
  apply (spinner_follows_compiler_events (H:=demo_collaborators) None
           (demo_args (JStr "dist") (JStr "file") JUndefined)
           [CompilerDone (demo_stats 1); CompilerInvalid;
            WatchCallback (Some (demo_error "boom")) None]).
  reflexivity.
Defined.

Lemma build_spinner_witness :
  let s1 := (run None (demo_args (JStr "dist") JUndefined JUndefined)).2 in
  spinning (effects (deliver_all
    (deliver (deliver_all s1 [CompilerDone (demo_stats 1)])
       (RunCallback (Some (demo_error "boom")) None))
    [CompilerInvalid]))
  = false.
Proof.
  destruct (build_spinner (H:=demo_collaborators) None
              (demo_args (JStr "dist") JUndefined JUndefined)
              [CompilerDone (demo_stats 1)] [CompilerInvalid]
              (Some (demo_error "boom")) None)
    as (_ & _ & Hstopped);
    [reflexivity | reflexivity | repeat constructor |].
  exact Hstopped.
Defined.

Lemma file_watch_log_witness :
  List.filter is_logger (effects (deliver_all
    (run None (demo_args (JStr "dist") (JStr "memory") (JBool true))).2
    [CompilerDone (demo_stats 1); WatchCallback None (Some (demo_stats 1));
     WatchCallback (Some (demo_error "boom")) None;
     WatchCallback None (Some (demo_stats 2))]))
  = [ELogger 1 (with_plugins [FactoryPlugin "minify"] demo_config)
       (Some "Listening on port 9999");
     ELogger 2 (with_plugins [FactoryPlugin "minify"] demo_config)
       (Some "Listening on port 9999")].
Proof.
  etrans;
    [apply (file_watch_log (H:=demo_collaborators) None
              (demo_args (JStr "dist") (JStr "memory") (JBool true))
              [CompilerDone (demo_stats 1);
               WatchCallback None (Some (demo_stats 1));
               WatchCallback (Some (demo_error "boom")) None;
               WatchCallback None (Some (demo_stats 2))]);
     reflexivity
    | vm_compute; reflexivity].
Defined.

Lemma memory_watch_log_witness :
  let args := demo_args (JStr "dev") (JStr "memory") (JBool true) in
  length (List.filter is_logger (effects (deliver_all (run None args).2
    [CompilerDone (demo_stats 1); CompilerInvalid;
     CompilerDone (demo_stats 2)])))
  = 2.
Proof.
  cbn zeta.
  rewrite (memory_watch_log (H:=demo_collaborators) None
             (demo_args (JStr "dev") (JStr "memory") (JBool true))
             [CompilerDone (demo_stats 1); CompilerInvalid;
              CompilerDone (demo_stats 2)]);
    reflexivity.
Defined.

Lemma serve_waits_for_first_compile_witness :
  let args := demo_args (JStr "dist") (JStr "file") (JBool true) in
  let s3 := deliver (deliver_all (run None args).2 [CompilerInvalid])
              (WatchCallback (Some (demo_error "boom")) None) in
  let s4 := deliver_all s3 [WatchCallback None (Some (demo_stats 1))] in
  serve_promise s4 = Some (Rejected (demo_error "boom")) ∧
  List.filter is_listen (effects s4) = [].
Proof.
  destruct (serve_waits_for_first_compile (H:=demo_collaborators) None
              (demo_args (JStr "dist") (JStr "file") (JBool true))
              [CompilerInvalid] [WatchCallback None (Some (demo_stats 1))]
              (Some (demo_error "boom")) None)
    as (_ & _ & Hrejected);
    [reflexivity | reflexivity | reflexivity | repeat constructor |].
  exact Hrejected.
Defined.

Lemma static_root_witness :
  ∃ dir,
    app (deliver_all
           (serve (demo_args (JStr "dist") JUndefined (JBool true))
              (new_state demo_config [])).2 [ListenCallback None])
    = [Static dir] ∧ dir = "/out".
Proof.
  destruct (static_root (H:=demo_collaborators) demo_config []
              (demo_args (JStr "dist") JUndefined (JBool true))
              [ListenCallback None])
    as (dir & Happ & _ & Hpath & _);
    [discriminate | discriminate |].
  exists dir. split; [exact Happ|].
  apply Hpath; [reflexivity | discriminate].
Defined.

Lemma memoryWatch_twice_witness :
  let args := demo_args (JStr "dev") (JStr "memory") (JBool true) in
  let s := new_state demo_config [] in
  arrays (config (memoryWatch args (memoryWatch args s).2).2) !! 1%positive
  = Some (replicate (2 * sharers (entry demo_config) 1%positive)
            hotReloadClientRef ++ ["a.js"]).
Proof.
  destruct (memoryWatch_twice (H:=demo_collaborators)
              (new_state demo_config [])
              (demo_args (JStr "dev") (JStr "memory") (JBool true))
              "main" 1%positive ["a.js"])
    as (Htwice & _);
    [reflexivity | reflexivity |].
  exact Htwice.
Defined.

Lemma registered_modes_select_their_factory_witness :
  factory_name
    (select_config (demo_args (JStr "test") JUndefined JUndefined)
       (default empty_rc None)).1
  = "test".
Proof.
  destruct (registered_modes_select_their_factory (H:=demo_collaborators)
              "test" (demo_args (JStr "test") JUndefined JUndefined) None)
    as (Hname & _);
    [| reflexivity |].
  - change (registered_choices "mode") with ["dist"; "dev"; "test"].
    apply list_elem_of_further, list_elem_of_further, list_elem_of_here.
  - exact Hname.
Defined.

Lemma serve_only_is_silent_witness :
  effects (deliver_all
    (run None (demo_args (JStr "dist") JUndefined (JBool true))).2
    [CompilerDone (demo_stats 1); ListenCallback None])
  = [ESilenceConsoleLog; EFactory DistFactory (demo_rc 0); EExpress;
     EListen (JNum 9999)].
Proof.
  destruct (serve_only_is_silent (H:=demo_collaborators) None
              (demo_args (JStr "dist") JUndefined (JBool true))
              [CompilerDone (demo_stats 1); ListenCallback None])
    as (Heffects & _);
    [reflexivity | reflexivity |].
  exact Heffects.
Defined.
